(** * ip-whitelist-by-country: the feed parser and the cache processor

    A shallow embedding of [internal/ipdata/processor.go] and a
    verification of its documented behaviour.

    Go strings are byte sequences; they are modelled by [string], whose
    characters ([ascii]) are exactly the 256 byte values.  Go's [int] is
    the 64-bit signed integer of the targets the project is built for
    (linux/amd64, linux/arm64); it is modelled by [Z] with the wrap-around
    written out where the code can overflow.  The parts of the Go runtime
    whose behaviour the source does not determine (Unicode case tables, the
    inexact branch of [math.Log2], the building of the request by [http.NewRequestWithContext]) are
    fields of the class [GoRuntime]; every theorem holds for all of them. *)

From Stdlib Require Import ZArith Lia Bool List Ascii String.
From stdpp Require Import base option list strings gmap fin_maps.

Import ListNotations.
Local Open Scope string_scope.
Local Open Scope Z_scope.

(** ** Bytes *)

Module Bytes.

Definition val (c : ascii) : N := N_of_ascii c.

(** [utf8.RuneSelf]: bytes below it are single-byte runes. *)
Definition RuneSelf : N := 128.

Definition isASCII (s : string) : bool :=
  forallb (fun c => (val c <? RuneSelf)%N) (list_ascii_of_string s).

Definition ofList (l : list ascii) : string := string_of_list_ascii l.
Definition toList (s : string) : list ascii := list_ascii_of_string s.

End Bytes.

(** ** The [strings] package *)

Module Strings.

(** [strings.HasPrefix(s, prefix)]. *)
Definition HasPrefix (s prefix : string) : bool := String.prefix prefix s.

(** The ASCII fast path of [strings.ToUpper]: ['a'..'z'] are shifted by
    ['a' - 'A'], every other byte is kept. *)
Definition upperByte (c : ascii) : ascii :=
  let n := Bytes.val c in
  if ((97 <=? n) && (n <=? 122))%N then ascii_of_N (n - 32) else c.

Fixpoint upperASCII (s : string) : string :=
  match s with
  | EmptyString => EmptyString
  | String c r => String (upperByte c) (upperASCII r)
  end.

(** [strings.Split(s, sep)] for a one-byte separator: the fields between
    the occurrences of [sep]; it always yields at least one field. *)
Fixpoint Split (s : string) (sep : ascii) : list string :=
  match s with
  | EmptyString => [EmptyString]
  | String c r =>
      if Ascii.eqb c sep then EmptyString :: Split r sep
      else match Split r sep with
           | f :: fs => String c f :: fs
           | [] => [String c EmptyString]
           end
  end.

(** [strings.Join(elems, sep)]. *)
Fixpoint Join (elems : list string) (sep : string) : string :=
  match elems with
  | [] => EmptyString
  | [e] => e
  | e :: rest => e +:+ sep +:+ Join rest sep
  end.

(** [unicode.IsSpace] read off the UTF-8 encoding: [spaceRuneLen l] is the
    number of bytes of the white-space rune [l] starts with, [0] when it
    starts with none.  ASCII: tab, LF, VT, FF, CR and space.  Beyond ASCII:
    U+0085, U+00A0, U+1680, U+2000..U+200A, U+2028, U+2029, U+202F, U+205F
    and U+3000. *)
Definition asciiSpace (n : N) : bool :=
  ((n =? 9) || (n =? 10) || (n =? 11) || (n =? 12) || (n =? 13) || (n =? 32))%N.

Definition spaceRuneLen (l : list N) : nat :=
  match l with
  | a :: r =>
      if asciiSpace a then 1%nat
      else match r with
           | b :: r' =>
               if ((a =? 194) && ((b =? 133) || (b =? 160)))%N then 2%nat
               else match r' with
                    | c :: _ =>
                        if ((a =? 225) && (b =? 154) && (c =? 128))%N then 3%nat
                        else if ((a =? 226) && (b =? 128) &&
                                 (((128 <=? c) && (c <=? 138)) || (c =? 168) ||
                                  (c =? 169) || (c =? 175)))%N then 3%nat
                        else if ((a =? 226) && (b =? 129) && (c =? 159))%N then 3%nat
                        else if ((a =? 227) && (b =? 128) && (c =? 128))%N then 3%nat
                        else 0%nat
                    | [] => 0%nat
                    end
           | [] => 0%nat
           end
  | [] => 0%nat
  end.

(** The same read from the end of the string (the list is reversed), as
    [utf8.DecodeLastRuneInString] finds the last rune. *)
Definition spaceRuneLenRev (l : list N) : nat :=
  match l with
  | a :: r =>
      if asciiSpace a then 1%nat
      else match r with
           | b :: r' =>
               if (spaceRuneLen [b; a] =? 2)%nat then 2%nat
               else match r' with
                    | c :: _ => if (spaceRuneLen [c; b; a] =? 3)%nat then 3%nat else 0%nat
                    | [] => 0%nat
                    end
           | [] => 0%nat
           end
  | [] => 0%nat
  end.

(** Drop leading white-space runes, with [len] telling where one starts. *)
Fixpoint trimWith (len : list N -> nat) (fuel : nat) (l : list N) : list N :=
  match fuel with
  | O => l
  | S fuel' =>
      match len l with
      | O => l
      | n => trimWith len fuel' (drop n l)
      end
  end.

(** [strings.TrimSpace(s)]: [s] without its leading and trailing Unicode
    white space. *)
Definition TrimSpace (s : string) : string :=
  let l := map Bytes.val (Bytes.toList s) in
  let l1 := trimWith spaceRuneLen (length l) l in
  let l2 := rev (trimWith spaceRuneLenRev (length l1) (rev l1)) in
  Bytes.ofList (map ascii_of_N l2).

End Strings.

(** ** The [strconv] package and [%d] *)

Module Strconv.

Definition intMin : Z := - 2 ^ 63.
Definition intMax : Z := 2 ^ 63 - 1.

(** Two's complement wrap-around of Go's 64-bit [int]. *)
Definition wrapInt (z : Z) : Z := (z + 2 ^ 63) mod 2 ^ 64 - 2 ^ 63.

Definition digitVal (c : ascii) : option Z :=
  let n := Bytes.val c in
  if ((48 <=? n) && (n <=? 57))%N then Some (Z.of_N n - 48) else None.

(** The value of a digit string read after [acc]; [None] on a byte that
    is not a decimal digit. *)
Fixpoint digits (acc : Z) (s : string) : option Z :=
  match s with
  | EmptyString => Some acc
  | String c r =>
      match digitVal c with
      | Some d => digits (acc * 10 + d) r
      | None => None
      end
  end.

(** [strconv.Atoi]: an optional sign, then at least one decimal digit and
    nothing else; a value outside the range of [int] is an error as well
    ([None] is a non-nil [err]). *)
Definition Atoi (s : string) : option Z :=
  let '(neg, body) :=
    match s with
    | String c r =>
        if Ascii.eqb c "-" then (true, r)
        else if Ascii.eqb c "+" then (false, r)
        else (false, s)
    | EmptyString => (false, s)
    end in
  match body with
  | EmptyString => None
  | _ =>
      match digits 0 body with
      | Some n =>
          let v := if neg then - n else n in
          if (intMin <=? v) && (v <=? intMax) then Some v else None
      | None => None
      end
  end.

Definition digitChar (d : Z) : ascii := ascii_of_N (Z.to_N (48 + d)).

Fixpoint natDigits (fuel : nat) (n : Z) (acc : string) : string :=
  match fuel with
  | O => acc
  | S fuel' =>
      let acc' := String (digitChar (n mod 10)) acc in
      if n <? 10 then acc' else natDigits fuel' (n / 10) acc'
  end.

(** [strconv.Itoa], which is also what the verb [%d] prints. *)
Definition Itoa (z : Z) : string :=
  if z <? 0 then String "-" (natDigits (Z.to_nat (Z.log2 (- z)) + 1) (- z) EmptyString)
  else natDigits (Z.to_nat (Z.log2 z) + 1) z EmptyString.

End Strconv.

(** ** Errors

    A Go [error] is kept with its message and, for an error built by
    [fmt.Errorf] with the verb [%w], the error it wraps. *)

Inductive error : Type :=
| errorString (msg : string)
| wrapError (msg : string) (err : error).

Definition Error (e : error) : string :=
  match e with
  | errorString msg => msg
  | wrapError msg _ => msg
  end.

(** [errors.Unwrap]. *)
Definition Unwrap (e : error) : option error :=
  match e with
  | errorString _ => None
  | wrapError _ err => Some err
  end.

(** [fmt.Errorf(prefix + "%w", err)]. *)
Definition Errorf_w (prefix : string) (err : error) : error :=
  wrapError (prefix +:+ Error err) err.

(** [fmt.Errorf(prefix + "%d", n)]: no [%w], hence a plain error. *)
Definition Errorf_d (prefix : string) (n : Z) : error :=
  errorString (prefix +:+ Strconv.Itoa n).

(** ** What the Go runtime decides

    - [unicodeToUpper s] is [strings.Map(unicode.ToUpper, s)], which
      [strings.ToUpper] falls back to when [s] has a byte outside ASCII;
    - [log2Inexact count] is [int(math.Log2(float64(count)))] whenever
      [float64(count)] is not a positive power of two: the truncation of the
      floating-point value [Log(frac)*(1/Ln2) + float64(exp)], and the
      implementation-dependent conversion of [-Inf] and [NaN] for
      [count <= 0];
    - [newRequestError url] is the error of [http.NewRequestWithContext] for
      the method [GET], a non-nil context and the address [url], if any. *)

Class GoRuntime : Type := {
  unicodeToUpper : string -> string;
  log2Inexact : Z -> Z;
  newRequestError : string -> option error
}.

(** ** The [math] package on integers *)

Module Math.

(** [float64(n)] for [n > 0], as the integer it denotes: exact below
    [2^53], rounded to 53 significant bits (ties to even) above. *)
Definition float64OfInt (n : Z) : Z :=
  let e := Z.log2 n - 52 in
  if e <=? 0 then n
  else
    let q := Z.shiftr n e in
    let r := Z.land n (Z.ones e) in
    let half := Z.shiftl 1 (e - 1) in
    let q' := if (half <? r) || ((r =? half) && Z.odd q) then q + 1 else q in
    Z.shiftl q' e.

(** The exponent of [math.Frexp(x)] for an integer [x > 0]:
    [x = frac * 2^exp] with [frac] in [[1/2, 1)]. *)
Definition frexpExp (x : Z) : Z := Z.log2 x + 1.

(** [frac == 0.5] in [math.Log2]: [x] is an exact power of two. *)
Definition fracIsHalf (x : Z) : bool := (0 <? x) && (x =? 2 ^ (frexpExp x - 1)).

(** [int(math.Log2(float64(count)))].  [math.Log2] returns
    [float64(exp - 1)] when [frac == 0.5], so that exact powers of two give
    an exact answer; everything else is the runtime's floating point. *)
Definition intLog2 `{GoRuntime} (count : Z) : Z :=
  let x := float64OfInt count in
  if (0 <? count) && fracIsHalf x then frexpExp x - 1
  else log2Inexact count.

End Math.

(** ** The [time] package *)

Module Time.

(** Instants and durations in nanoseconds; [zero] is [time.Time{}]. *)
Definition zero : Z := 0.
Definition minDuration : Z := - 2 ^ 63.
Definition maxDuration : Z := 2 ^ 63 - 1.
Definition Hour : Z := 3600 * 1000000000.

(** [t.Sub(u)]: the difference, saturated to the range of [Duration]. *)
Definition Sub (t u : Z) : Z :=
  let d := t - u in
  if d <? minDuration then minDuration
  else if maxDuration <? d then maxDuration
  else d.

End Time.

(** ** [bufio.Scanner] with the default split function [ScanLines] *)

Module Bufio.

Definition MaxScanTokenSize : Z := 65536.

Definition ErrTooLong : error := errorString "bufio.Scanner: token too long".

(** [dropCR]: one trailing carriage return is removed. *)
Fixpoint dropCR (s : string) : string :=
  match s with
  | EmptyString => EmptyString
  | String c EmptyString => if Ascii.eqb c "013" then EmptyString else s
  | String c r => String c (dropCR r)
  end.

(** A line that does not fit the buffer with its terminator stops the
    scan with [ErrTooLong]. *)
Definition tooLong (seg : string) : bool :=
  MaxScanTokenSize <=? Z.of_nat (String.length seg).

(** The tokens of the segments between line feeds, up to the first one
    that is too long; the flag tells whether there was one.  The segment
    after the last line feed is a token only when it is not empty. *)
Fixpoint tokens (segs : list string) : list string * bool :=
  match segs with
  | [] => ([], false)
  | [seg] =>
      if tooLong seg then ([], true)
      else match seg with
           | EmptyString => ([], false)
           | _ => ([dropCR seg], false)
           end
  | seg :: rest =>
      if tooLong seg then ([], true)
      else let '(ts, long) := tokens rest in (dropCR seg :: ts, long)
  end.

(** The successive values of [scanner.Text()] over the stream [data]. *)
Definition scanLines (data : string) : list string * bool :=
  tokens (Strings.Split data "010").

End Bufio.

(** ** [net/http] as the processor sees it *)

(** A response body: the bytes [Read] delivers, and the error it reports
    after them instead of [io.EOF], if any (the end of the stream is
    reported by a call of its own, as [bytes.Buffer] does). *)
Record Body : Type := { content : string; readErr : option error }.

Record Response : Type := { StatusCode : Z; RespBody : Body }.

(** The two results of [HTTPClient.Do]. *)
Inductive DoResult : Type :=
| DoOk (resp : Response)
| DoErr (err : error).

Definition StatusOK : Z := 200.

(** ** The processor *)

(** [IPData]: a single IP allocation record. *)
Record IPData : Type := {
  Country : string;
  IPStart : string;
  Count : Z;
  CIDRMask : Z
}.

(** [Processor]: the cache, its time stamp and its time to live.  The
    [config] field is not read after construction; [httpClient] is the
    environment below; [mutex] serialises callers, and the model runs one
    caller at a time. *)
Record Processor : Type := {
  cache : gmap string (list string);
  cacheTime : Z;
  cacheTTL : Z
}.

(** What the processor observes and cannot control: the successive
    readings of the clock and the successive results of [httpClient.Do]. *)
Record Env : Type := {
  clockAt : nat -> Z;
  doAt : nat -> DoResult
}.

Inductive Event : Type :=
| EvLog (msg : string)
| EvDo (url : string)
| EvReadBody
| EvCloseBody.

(** What the processor changes outside itself: the package variable
    [ripeURL], the number of clock readings taken, the number of calls of
    [Do] (the mock's [CallCount]) and the trace of effects, oldest first. *)
Record World : Type := {
  ripeURL : string;
  ticks : nat;
  doCalls : nat;
  trace : list Event
}.

Definition defaultRipeURL : string :=
  "https://ftp.ripe.net/ripe/stats/delegated-ripencc-extended-latest".

Definition initWorld : World :=
  {| ripeURL := defaultRipeURL; ticks := 0; doCalls := 0; trace := [] |}.

(** [time.Now()]: the next reading of the clock. *)
Definition now (env : Env) (w : World) : Z * World :=
  (clockAt env (ticks w),
   {| ripeURL := ripeURL w; ticks := S (ticks w); doCalls := doCalls w; trace := trace w |}).

Definition emit (ev : Event) (w : World) : World :=
  {| ripeURL := ripeURL w; ticks := ticks w; doCalls := doCalls w; trace := (trace w ++ [ev])%list |}.

(** [p.httpClient.Do(req)]. *)
Definition Do (env : Env) (w : World) : DoResult * World :=
  (doAt env (doCalls w),
   {| ripeURL := ripeURL w; ticks := ticks w; doCalls := S (doCalls w);
      trace := (trace w ++ [EvDo (ripeURL w)])%list |}).

(** [time.Since(p.cacheTime) < p.cacheTTL] at the reading [t]. *)
Definition fresh (p : Processor) (t : Z) : bool :=
  Time.Sub t (cacheTime p) <? cacheTTL p.

(** [NewProcessor] and [NewProcessorWithClient]: an empty cache with the
    zero time stamp; [parsed] is the result of [time.ParseDuration] on the
    configured duration, one hour standing in for a failure. *)
Definition NewProcessor (parsed : option Z) : Processor :=
  {| cache := ∅;
     cacheTime := Time.zero;
     cacheTTL := match parsed with Some d => d | None => 1 * Time.Hour end |}.

Section Processor.

Context `{GoRuntime}.

(** [strings.ToUpper]. *)
Definition ToUpper (s : string) : string :=
  if Bytes.isASCII s then Strings.upperASCII s else unicodeToUpper s.

(** [mask := 32 - int(math.Log2(float64(count)))]. *)
Definition cidrMask (count : Z) : Z := Strconv.wrapInt (32 - Math.intLog2 count).

(** The body of the scan loop up to the record it builds; [None] is every
    [continue] and the untaken [if]. *)
Definition lineRecord (line : string) : option IPData :=
  if Strings.HasPrefix line "#" || String.eqb (Strings.TrimSpace line) "" then None
  else
    let parts := Strings.Split line "|" in
    if (length parts <? 6)%nat then None
    else if String.eqb (nth 0 parts "") "ripencc" && String.eqb (nth 2 parts "") "ipv4" then
      let country := ToUpper (nth 1 parts "") in
      let ipStart := nth 3 parts "" in
      let countStr := nth 4 parts "" in
      match Strconv.Atoi countStr with
      | None => None
      | Some count =>
          Some {| Country := country; IPStart := ipStart;
                  Count := count; CIDRMask := cidrMask count |}
      end
    else None.

(** [ipDataByCountry[country] = append(ipDataByCountry[country], rec)]. *)
Definition appendRecord (m : gmap string (list IPData)) (r : IPData) : gmap string (list IPData) :=
  <[Country r := (default [] (m !! Country r) ++ [r])%list]> m.

(** One turn of the scan loop. *)
Definition processLine (m : gmap string (list IPData)) (line : string) : gmap string (list IPData) :=
  match lineRecord line with
  | Some r => appendRecord m r
  | None => m
  end.

(** The scan loop over the body, and [scanner.Err()] after it. *)
Definition scanBody (b : Body) : gmap string (list IPData) * option error :=
  let '(lines, long) := Bufio.scanLines (content b) in
  (foldl processLine ∅ lines, if long then Some Bufio.ErrTooLong else readErr b).

(** [fmt.Sprintf("%s/%d", ipData.IPStart, ipData.CIDRMask)]. *)
Definition cidr (r : IPData) : string :=
  IPStart r +:+ "/" +:+ Strconv.Itoa (CIDRMask r).

(** The conversion loop: every country's records become its CIDR list.
    The iteration order of the Go map does not matter, each key is written
    once. *)
Definition newCacheOf (m : gmap string (list IPData)) : gmap string (list string) :=
  map cidr <$> m.

Definition logProcessed (c : gmap string (list string)) : Event :=
  EvLog ("IP data processed. Found data for " +:+ Strconv.Itoa (Z.of_nat (size c)) +:+ " countries").

(** [downloadAndProcessData]: the error returned ([None] is [nil]), the
    processor and the world after the call. *)
Definition downloadAndProcessData (env : Env) (p : Processor) (w : World)
  : option error * Processor * World :=
  let '(t, w) := now env w in
  if fresh p t then (None, p, w)
  else
    let w := emit (EvLog "Downloading IP data from RIPE NCC...") w in
    match newRequestError (ripeURL w) with
    | Some err => (Some (Errorf_w "failed to create request: " err), p, w)
    | None =>
        let '(res, w) := Do env w in
        match res with
        | DoErr err => (Some (Errorf_w "failed to download data: " err), p, w)
        | DoOk resp =>
            if negb (StatusCode resp =? StatusOK) then
              (Some (Errorf_d "received non-200 response: " (StatusCode resp)), p,
               emit EvCloseBody w)
            else
              let w := emit EvReadBody w in
              let '(ipDataByCountry, scanErr) := scanBody (RespBody resp) in
              match scanErr with
              | Some err =>
                  (Some (Errorf_w "error reading response: " err), p, emit EvCloseBody w)
              | None =>
                  let newCache := newCacheOf ipDataByCountry in
                  let '(t', w) := now env w in
                  let p' := {| cache := newCache; cacheTime := t'; cacheTTL := cacheTTL p |} in
                  (None, p', emit EvCloseBody (emit (logProcessed newCache) w))
              end
        end
    end.

(** [GetIPListForCountry]: the list and the error returned (a [nil] slice
    and an empty one are both [[]]), the processor and the world after. *)
Definition GetIPListForCountry (env : Env) (p : Processor) (w : World) (countryCode : string)
  : list string * option error * Processor * World :=
  let countryCode := ToUpper countryCode in
  let '(t, w) := now env w in
  let hit := if fresh p t then cache p !! countryCode else None in
  match hit with
  | Some ipList => (ipList, None, p, w)
  | None =>
      let '(err, p, w) := downloadAndProcessData env p w in
      match err with
      | Some e => ([], Some (Errorf_w "failed to download and process data: " e), p, w)
      | None =>
          match cache p !! countryCode with
          | Some ipList => (ipList, None, p, w)
          | None => ([], None, p, w)
          end
      end
  end.

End Processor.

(** A runtime to run the model with on ASCII feeds: the inexact branch of
    the logarithm follows amd64 (the floor of the logarithm for a positive
    count, the smallest [int] for [-Inf] and [NaN]); no URL is rejected. *)
Definition refRuntime : GoRuntime :=
  {| unicodeToUpper := fun s => s;
     log2Inexact := fun count => if count <=? 0 then Strconv.intMin else Z.log2 count;
     newRequestError := fun _ => None |}.

(** ** Names for the statements *)

(** The world once the refresh has logged that it downloads. *)
Definition started (env : Env) (w : World) : World :=
  emit (EvLog "Downloading IP data from RIPE NCC...") (now env w).2.

(** The world once [Do] has returned. *)
Definition fetched (env : Env) (w : World) : World := (Do env (started env w)).2.

(** The ways a refresh that fetches can fail, as the specification lists
    them, and the one it leaves out: a line too long for the scanner. *)
Inductive RefreshFailure `{GoRuntime} (env : Env) (w : World) : Prop :=
| RequestBuildFailed (err : error) :
    newRequestError (ripeURL w) = Some err -> RefreshFailure env w
| DownloadFailed (err : error) :
    newRequestError (ripeURL w) = None ->
    doAt env (doCalls w) = DoErr err -> RefreshFailure env w
| UnexpectedStatus (resp : Response) :
    newRequestError (ripeURL w) = None ->
    doAt env (doCalls w) = DoOk resp ->
    StatusCode resp <> StatusOK -> RefreshFailure env w
| ReadError (resp : Response) (err : error) :
    newRequestError (ripeURL w) = None ->
    doAt env (doCalls w) = DoOk resp ->
    StatusCode resp = StatusOK ->
    readErr (RespBody resp) = Some err -> RefreshFailure env w
| LineTooLong (resp : Response) :
    newRequestError (ripeURL w) = None ->
    doAt env (doCalls w) = DoOk resp ->
    StatusCode resp = StatusOK ->
    (Bufio.scanLines (content (RespBody resp))).2 = true -> RefreshFailure env w.

(** What the scan loop and the conversion loop make of a feed: the
    records of the lines [lineRecord] accepts, in feed order, and for a
    country the CIDR strings of its records, in that order. *)
Definition feedRecords `{GoRuntime} (data : string) : list IPData :=
  omap lineRecord (Bufio.scanLines data).1.

Definition feedCIDRs `{GoRuntime} (data : string) (country : string) : list string :=
  map cidr (filter (fun r => Country r = country) (feedRecords data)).

(** An environment whose clock reads [t0], [t0 + step], ... and whose
    transport always gives the same result. *)
Definition steadyEnv (t0 step : Z) (res : DoResult) : Env :=
  {| clockAt := fun n => t0 + step * Z.of_nat n; doAt := fun _ => res |}.

Definition okResponse (data : string) : DoResult :=
  DoOk {| StatusCode := StatusOK; RespBody := {| content := data; readErr := None |} |}.

Definition usFeed : string := "ripencc|US|ipv4|192.168.0.0|256|20220101|allocated".

(** ** Concrete runs *)

Definition deFeedBadCount : string :=
  "ripencc|DE|ipv4|10.0.0.0|notanint|20220101|allocated".

Definition apnicLine : string := "apnic|CN|ipv4|172.16.0.0|4096|20220101|allocated".

(** Lines whose count [strconv.Atoi] accepts although it is not positive. *)
Definition zeroCountLine : string := "ripencc|US|ipv4|10.0.0.0|0|20220101|allocated".
Definition negativeCountLine : string := "ripencc|US|ipv4|10.0.0.0|-256|20220101|allocated".

(** A new processor with the default time to live of one hour. *)
Definition staleProcessor : Processor := NewProcessor None.

(** A clock that starts two hours after the zero instant and advances by
    a nanosecond at each reading: the new processor's cache is stale. *)
Definition tickingEnv (res : DoResult) : Env := steadyEnv (2 * Time.Hour) 1 res.

(** A processor whose cache was filled at the instant the clock starts
    from: fresh for an hour. *)
Definition freshProcessor : Processor :=
  {| cache := {[ "US" := ["192.168.1.0/24"; "10.0.0.0/8"] ]};
     cacheTime := 2 * Time.Hour;
     cacheTTL := 1 * Time.Hour |}.

Definition statusResponse (code : Z) (data : string) : DoResult :=
  DoOk {| StatusCode := code; RespBody := {| content := data; readErr := None |} |}.

(** The feed of the repository's test of a successful refresh. *)
Definition testFeed : string :=
  Strings.Join
    ["# comment";
     "";
     "invalid|line";
     "ripencc|US|ipv4|192.168.0.0|256|20220101|allocated";
     "ripencc|FR|ipv6|2001:db8::|1|20220101|allocated";
     "apnic|CN|ipv4|172.16.0.0|4096|20220101|allocated";
     "ripencc|DE|ipv4|10.0.0.0|notanint|20220101|allocated";
     "ripencc|DE|ipv4|10.0.0.0|65536|20220101|allocated"]
    (String "010" EmptyString).

(** The response of the test's [errReadCloser]: no byte, then an error. *)
Definition brokenBody : DoResult :=
  DoOk {| StatusCode := StatusOK;
          RespBody := {| content := ""; readErr := Some (errorString "read error") |} |}.

(** A new processor configured with the cache duration "0s". *)
Definition zeroTTLProcessor : Processor := NewProcessor (Some 0).

(** A clock that gives the same reading every time (a coarse clock within
    one tick), and two refreshes in a row under it. *)
Definition frozenEnv : Env := steadyEnv 1000 0 (okResponse usFeed).

Definition firstRefresh : option error * Processor * World :=
  downloadAndProcessData (H := refRuntime) frozenEnv zeroTTLProcessor initWorld.

Definition secondRefresh : option error * Processor * World :=
  downloadAndProcessData (H := refRuntime) frozenEnv firstRefresh.1.2 firstRefresh.2.

(** The refresh of the stale processor from the one-line feed. *)
Definition usRefresh : option error * Processor * World :=
  downloadAndProcessData (H := refRuntime) (tickingEnv (okResponse usFeed)) staleProcessor initWorld.

(** ** The life of a processor *)

(** The states a processor goes through: it is created, and then only
    [GetIPListForCountry] is called on it. *)
Inductive Reachable `{GoRuntime} (env : Env) (parsed : option Z) : Processor -> World -> Prop :=
| reach_new : Reachable env parsed (NewProcessor parsed) initWorld
| reach_lookup (p : Processor) (w : World) (countryCode : string) :
    Reachable env parsed p w ->
    Reachable env parsed
      (GetIPListForCountry env p w countryCode).1.2
      (GetIPListForCountry env p w countryCode).2.

(** ** The request handler ([internal/handler]) *)

(** [config.Config]. *)
Record Config : Type := {
  ServerPort : string;
  AuthToken : string;
  CacheDuration : string;
  ShowVersion : bool
}.

Module Http.

Definition MethodGet : string := "GET".
Definition StatusBadRequest : Z := 400.
Definition StatusUnauthorized : Z := 401.
Definition StatusMethodNotAllowed : Z := 405.
Definition StatusInternalServerError : Z := 500.

(** [url.Values] and [http.Header]: the values of each key, in order. *)
Abbreviation Values := (gmap string (list string)).

(** [Values.Get]: the first value of the key, the empty string without
    one. *)
Definition Get (v : Values) (key : string) : string :=
  match v !! key with
  | Some (x :: _) => x
  | _ => EmptyString
  end.

(** [Header.Set] and [Header.Del], on keys that are already in canonical
    form. *)
Definition HeaderSet (h : Values) (key value : string) : Values := <[key := [value]]> h.
Definition HeaderDel (h : Values) (key : string) : Values := delete key h.

(** An [*http.Request] as the handler reads it: its method, and the
    values [r.URL.Query()] parses from its URL. *)
Record Request : Type := { Method : string; Query : Values }.

(** An [http.ResponseWriter], as [httptest.ResponseRecorder] and the
    server implement it: the header map the handler may still change, the
    status and the headers fixed by the first [WriteHeader], and the bytes
    written. *)
Record ResponseWriter : Type := {
  header : Values;
  sent : option (Z * Values);
  written : string
}.

Definition newRecorder : ResponseWriter :=
  {| header := ∅; sent := None; written := EmptyString |}.

Definition setHeader (w : ResponseWriter) (key value : string) : ResponseWriter :=
  {| header := HeaderSet (header w) key value; sent := sent w; written := written w |}.

Definition delHeader (w : ResponseWriter) (key : string) : ResponseWriter :=
  {| header := HeaderDel (header w) key; sent := sent w; written := written w |}.

(** [w.WriteHeader(code)]: the first call fixes the status and the
    headers, a later one does nothing. *)
Definition WriteHeader (w : ResponseWriter) (code : Z) : ResponseWriter :=
  match sent w with
  | Some _ => w
  | None => {| header := header w; sent := Some (code, header w); written := written w |}
  end.

(** [w.Write(data)]: an implicit [WriteHeader(200)] when none was made,
    then the bytes. *)
Definition Write (w : ResponseWriter) (data : string) : ResponseWriter :=
  let w := WriteHeader w StatusOK in
  {| header := header w; sent := sent w; written := written w +:+ data |}.

(** [http.Error(w, error, code)]: the content length is dropped, the
    content type and the sniffing option are set, then the status and the
    message with a line feed. *)
Definition Error (w : ResponseWriter) (msg : string) (code : Z) : ResponseWriter :=
  let w := delHeader w "Content-Length" in
  let w := setHeader w "Content-Type" "text/plain; charset=utf-8" in
  let w := setHeader w "X-Content-Type-Options" "nosniff" in
  let w := WriteHeader w code in
  Write w (msg +:+ String "010" EmptyString).

(** What the client receives once the handler has returned: the status
    (200 when the handler never wrote one) and the headers. *)
Definition statusOf (w : ResponseWriter) : Z :=
  match sent w with Some (code, _) => code | None => StatusOK end.

Definition headersOf (w : ResponseWriter) : Values :=
  match sent w with Some (_, h) => h | None => header w end.

End Http.

(** [ipdata.IPProcessor]: the interface the handler holds.  A call may
    change the processor behind it, hence the state [S]. *)
Class IPProcessor (S : Type) : Type := {
  lookupCountry : S -> string -> (list string * option error) * S
}.

(** The processor of this package behind the interface, in a given
    environment. *)
Definition liveProcessor `{GoRuntime} (env : Env) : IPProcessor (Processor * World) :=
  {| lookupCountry := fun s countryCode =>
       ((GetIPListForCountry env s.1 s.2 countryCode).1.1,
        ((GetIPListForCountry env s.1 s.2 countryCode).1.2,
         (GetIPListForCountry env s.1 s.2 countryCode).2)) |}.

(** The [MockProcessor] of the handler's tests. *)
Record MockProcessor : Type := { ipLists : gmap string (list string); err : option error }.

Definition mockProcessor : IPProcessor MockProcessor :=
  {| lookupCountry := fun m countryCode =>
       match err m with
       | Some e => (([], Some e), m)
       | None => ((default [] (ipLists m !! countryCode), None), m)
       end |}.

(** [getIpListHandler]: the response written and the processor after. *)
Definition getIpListHandler {S : Type} `{IPProcessor S} (config : Config) (processor : S)
  (w : Http.ResponseWriter) (r : Http.Request) : Http.ResponseWriter * S :=
  if negb (String.eqb (Http.Method r) Http.MethodGet) then
    (Http.Error w "Method not allowed" Http.StatusMethodNotAllowed, processor)
  else
    let country := Http.Get (Http.Query r) "country" in
    let auth := Http.Get (Http.Query r) "auth" in
    if String.eqb country "" then
      (Http.Error w "Missing country parameter" Http.StatusBadRequest, processor)
    else if negb (String.eqb (AuthToken config) "") &&
            (String.eqb auth "" || negb (String.eqb auth (AuthToken config))) then
      (Http.Error w "Unauthorized" Http.StatusUnauthorized, processor)
    else
      let '((ipList, e), processor) := lookupCountry processor country in
      match e with
      | Some e =>
          (Http.Error w ("Error processing request: " +:+ Error e)
             Http.StatusInternalServerError, processor)
      | None =>
          let w := Http.setHeader w "Content-Type" "text/plain" in
          (foldl (fun w ip => Http.Write w (ip +:+ String "010" EmptyString)) w ipList,
           processor)
      end.

(** The body of a successful response: every entry followed by a line
    feed. *)
Definition listBody (ipList : list string) : string :=
  foldr (fun ip rest => ip +:+ String "010" rest) EmptyString ipList.

(** Whether the byte [c] occurs in [s] ([strings.IndexByte(s, c) >= 0]). *)
Fixpoint hasByte (c : ascii) (s : string) : bool :=
  match s with
  | EmptyString => false
  | String b r => Ascii.eqb b c || hasByte c r
  end.

(** ** [ValidateIPCIDR] and [net.ParseCIDR] *)

(** What the [net] package decides beyond IPv4: [parseIPv6 s] tells whether
    [netip.ParseAddr] accepts, with an empty zone, an address [s] whose first
    byte among ['.'], [':'] and ['%'] is a colon. *)
Class NetRuntime : Type := { parseIPv6 : string -> bool }.

Module Net.

(** [dtoi]'s bound on the numbers it reads. *)
Definition big : Z := 16777215.

(** The loop of [dtoi]: decimal digits are read into [n] while there are
    some; a value that reaches [big] stops it with a failure. *)
Fixpoint dtoiLoop (n : Z) (i : nat) (s : string) : Z * nat * bool :=
  match s with
  | EmptyString => (n, i, true)
  | String c r =>
      match Strconv.digitVal c with
      | Some d =>
          if big <=? n * 10 + d then (big, i, false)
          else dtoiLoop (n * 10 + d) (S i) r
      | None => (n, i, true)
      end
  end.

(** [dtoi(s)]: the number read, the number of bytes consumed and whether
    a number was read. *)
Definition dtoi (s : string) : Z * nat * bool :=
  let '(n, i, ok) := dtoiLoop 0 0 s in
  if ok then (if (i =? 0)%nat then (0, 0%nat, false) else (n, i, true))
  else (n, i, false).

(** The loop of [netip]'s IPv4 parser over the rest [s] of the address:
    [first] and [prevDot] tell whether the byte at hand is the first one and
    whether the byte before it was a dot; [val], [pos] and [digLen] are the
    loop's variables and [fields] the octets stored so far. *)
Fixpoint parseIPv4Loop (s : string) (first prevDot : bool) (val : Z) (pos digLen : nat)
  (fields : list Z) : option (list Z) :=
  match s with
  | EmptyString => if (pos <? 3)%nat then None else Some (fields ++ [val])%list
  | String c r =>
      match Strconv.digitVal c with
      | Some d =>
          if (digLen =? 1)%nat && (val =? 0) then None
          else if 255 <? val * 10 + d then None
          else parseIPv4Loop r false false (val * 10 + d) pos (S digLen) fields
      | None =>
          if Ascii.eqb c "." then
            if first || (match r with EmptyString => true | _ => false end) || prevDot then None
            else if (pos =? 3)%nat then None
            else parseIPv4Loop r false true 0 (S pos) 0%nat (fields ++ [val])%list
          else None
      end
  end.

(** [parseIPv4]: the four octets of a dotted decimal address. *)
Definition parseIPv4 (s : string) : option (list Z) :=
  parseIPv4Loop s true false 0 0%nat 0%nat [].

(** The byte on which [netip.ParseAddr] chooses its parser: the first
    among ['.'], [':'] and ['%']. *)
Fixpoint addrKind (s : string) : option ascii :=
  match s with
  | EmptyString => None
  | String c r =>
      if Ascii.eqb c "." || Ascii.eqb c ":" || Ascii.eqb c "%" then Some c
      else addrKind r
  end.

(** [netip.ParseAddr(s)] as [ParseCIDR] uses it: the [BitLen] of the
    address when it parses and has no zone. *)
Definition addrBits `{NetRuntime} (s : string) : option Z :=
  match addrKind s with
  | Some c =>
      if Ascii.eqb c "." then
        match parseIPv4 s with Some _ => Some 32 | None => None end
      else if Ascii.eqb c ":" then
        if parseIPv6 s then Some 128 else None
      else None
  | None => None
  end.

(** [s[:i], s[i+1:]] for the first index [i] of the byte [c] in [s]. *)
Fixpoint cutByte (s : string) (c : ascii) : option (string * string) :=
  match s with
  | EmptyString => None
  | String b r =>
      if Ascii.eqb b c then Some (EmptyString, r)
      else match cutByte r c with
           | Some (before, after) => Some (String b before, after)
           | None => None
           end
  end.

(** [net.ParseCIDR(s)]: whether it returns no error. *)
Definition ParseCIDR `{NetRuntime} (s : string) : bool :=
  match cutByte s "/" with
  | None => false
  | Some (addr, mask) =>
      match addrBits addr with
      | None => false
      | Some bits =>
          let '(n, i, ok) := dtoi mask in
          ok && (i =? String.length mask)%nat && (0 <=? n) && (n <=? bits)
      end
  end.

End Net.

(** [ValidateIPCIDR]. *)
Definition ValidateIPCIDR `{NetRuntime} (s : string) : option error :=
  if Net.ParseCIDR s then None else Some (errorString "invalid CIDR notation").

(** A [net] runtime that accepts no IPv6 address, to run the model on
    IPv4. *)
Definition ipv4Only : NetRuntime := {| parseIPv6 := fun _ => false |}.

(** ** [internal/version] *)

(** The four package variables, which the build may override. *)
Record BuildInfo : Type := {
  Version : string;
  GitCommit : string;
  BuildDate : string;
  GoVersion : string
}.

Definition defaultBuild : BuildInfo :=
  {| Version := "dev"; GitCommit := "unknown"; BuildDate := "unknown"; GoVersion := "unknown" |}.

(** [GetVersion]. *)
Definition GetVersion (b : BuildInfo) : string :=
  if String.eqb (Version b) "dev" then "dev (development build)" else Version b.

(** [GetFullVersion]. *)
Definition GetFullVersion (b : BuildInfo) : string :=
  "Version: " +:+ Version b +:+ String "010" EmptyString +:+
  "Git Commit: " +:+ GitCommit b +:+ String "010" EmptyString +:+
  "Build Date: " +:+ BuildDate b +:+ String "010" EmptyString +:+
  "Go Version: " +:+ GoVersion b.

(** ** The feed as the specification reads it

    Section 6 of the specification gives the wire format, one allocation
    per line: [registry|countryCode|addressFamily|startAddress|count|date|status[...]],
    and section 4.2 says which lines are consumed.  The definitions of this
    module follow that text and not the scan loop: a row is a tuple of fields,
    it is written as a line by joining its fields with the delimiter, and a
    line is an allocation when it is the line of such a row.  The theorems
    relate what the loop reads to them. *)

Module Feed.

(** A row of six fields or more; [rest] is the status and whatever
    follows it. *)
Record Row : Type := {
  registry : string;
  countryCode : string;
  addressFamily : string;
  startAddress : string;
  count : string;
  date : string;
  rest : list string
}.

Definition fields (row : Row) : list string :=
  registry row :: countryCode row :: addressFamily row :: startAddress row ::
  count row :: date row :: rest row.

(** The line a row is written as. *)
Definition line (row : Row) : string := Strings.Join (fields row) "|".




(** The output form ["<startAddress>/<prefixLength>"]. *)
Definition cidr (start : string) (prefixLength : Z) : string :=
  start +:+ "/" +:+ Strconv.Itoa prefixLength.

(** The prefix length of a block of [n] addresses: [32 - floor(log2 n)]. *)
Definition prefixLength (n : Z) : Z := 32 - Z.log2 n.


End Feed.


(** ** Concrete requests and runs *)

(** The transport of the repository's [TestGetIPListForCountryHTTPError]:
    every call fails. *)
Definition downEnv : Env := tickingEnv (DoErr (errorString "mock download error")).

Definition failedLookup : list string * option error * Processor * World :=
  GetIPListForCountry (H := refRuntime) downEnv staleProcessor initWorld "US".

(** The first lookup of a new processor, served from the one-line feed. *)
Definition usLookup : list string * option error * Processor * World :=
  GetIPListForCountry (H := refRuntime) (tickingEnv (okResponse usFeed)) staleProcessor
    initWorld "us".

(** A clock as a deployment has it: further from the zero instant than the
    longest duration. *)
Definition wallEnv (res : DoResult) : Env := steadyEnv (2 ^ 63) 1 res.

(** The default configuration, and one with a token. *)
Definition openConfig : Config :=
  {| ServerPort := "8080"; AuthToken := ""; CacheDuration := "1h"; ShowVersion := false |}.

Definition tokenConfig : Config :=
  {| ServerPort := "8080"; AuthToken := "test-token"; CacheDuration := "1h";
     ShowVersion := false |}.

(** [GET /get?country=US], [GET /get?country=us],
    [GET /get?country=US&auth=wrong-token] and [POST /get?country=US]. *)
Definition getUS : Http.Request :=
  {| Http.Method := "GET"; Http.Query := {[ "country" := ["US"] ]} |}.


Definition getWrongToken : Http.Request :=
  {| Http.Method := "GET";
     Http.Query := <["auth" := ["wrong-token"]]> {[ "country" := ["US"] ]} |}.

Definition postUS : Http.Request :=
  {| Http.Method := "POST"; Http.Query := {[ "country" := ["US"] ]} |}.

(** The mock of the handler's tests. *)
Definition usMock : MockProcessor :=
  {| ipLists := {[ "US" := ["192.168.1.0/24"; "10.0.0.0/8"] ]}; err := None |}.

(** A feed line in the extended format, with an opaque identifier after
    the status, for the allocation of [usFeed]. *)
Definition usFeedExtended : string :=
  "ripencc|US|ipv4|192.168.0.0|256|20240101|assigned|a1b2c3".

Definition deRecord : IPData :=
  {| Country := "DE"; IPStart := "10.0.0.0"; Count := 65536; CIDRMask := 16 |}.

(** * Verification *)

(** ** The model on sample inputs *)

Example split_feed_line :
  Strings.Split "ripencc|DE|ipv4|10.0.0.0|65536|20220101|allocated" "|"
  = ["ripencc"; "DE"; "ipv4"; "10.0.0.0"; "65536"; "20220101"; "allocated"].
Proof. reflexivity. Qed.

Example split_keeps_empty_fields : Strings.Split "a||b|" "|" = ["a"; ""; "b"; ""].
Proof. reflexivity. Qed.

Example atoi_samples :
  map Strconv.Atoi ["256"; "+7"; "-12"; "0"; ""; "-"; "12a"; "notanint";
                    "9223372036854775807"; "9223372036854775808"]
  = [Some 256; Some 7; Some (-12); Some 0; None; None; None; None;
     Some 9223372036854775807; None].
Proof. vm_compute. reflexivity. Qed.

Example itoa_samples :
  map Strconv.Itoa [0; 7; 24; 200; 65536; -5; -9223372036854775776]
  = ["0"; "7"; "24"; "200"; "65536"; "-5"; "-9223372036854775776"].
Proof. vm_compute. reflexivity. Qed.

Example trimspace_samples :
  map Strings.TrimSpace ["  a b  "; ""; "   "; String (ascii_of_N 194) (String (ascii_of_N 160) " ")]
  = ["a b"; ""; ""; ""].
Proof. vm_compute. reflexivity. Qed.

Example line_record_sample :
  lineRecord (H := refRuntime) "ripencc|de|ipv4|10.0.0.0|65536|20220101|allocated"
  = Some {| Country := "DE"; IPStart := "10.0.0.0"; Count := 65536; CIDRMask := 16 |}.
Proof. vm_compute. reflexivity. Qed.

(** The table of the repository's [TestCIDRMaskCalculation], for every
    runtime. *)
Example cidr_mask_table `{GoRuntime} :
  map cidrMask [1; 2; 4; 8; 16; 32; 64; 128; 256; 512; 1024; 65536; 16777216]
  = [32; 31; 30; 29; 28; 27; 26; 25; 24; 23; 22; 16; 8].
Proof. vm_compute. reflexivity. Qed.

(** [TestDownloadAndProcessData_SuccessParsesAndCaches]. *)
Example refresh_test_feed :
  let r := downloadAndProcessData (H := refRuntime) (tickingEnv (okResponse testFeed))
             zeroTTLProcessor initWorld in
  r.1.1 = None /\
  cache r.1.2 !! "US" = Some ["192.168.0.0/24"] /\
  cache r.1.2 !! "DE" = Some ["10.0.0.0/16"] /\
  cache r.1.2 !! "FR" = None /\ cache r.1.2 !! "CN" = None /\
  size (cache r.1.2) = 2%nat.
Proof. vm_compute. repeat split. Qed.

(** [TestDownloadAndProcessData_ScannerError] and
    [TestGetIPListForCountryHTTPError]: the messages of the errors. *)
Example refresh_error_messages :
  (Error <$> (downloadAndProcessData (H := refRuntime) (tickingEnv brokenBody)
                zeroTTLProcessor initWorld).1.1
   = Some "error reading response: read error") /\
  (Error <$> (GetIPListForCountry (H := refRuntime)
                (tickingEnv (DoErr (errorString "mock download error")))
                staleProcessor initWorld "US").1.1.2
   = Some "failed to download and process data: failed to download data: mock download error") /\
  (Error <$> (GetIPListForCountry (H := refRuntime) (tickingEnv (statusResponse 404 "Not Found"))
                staleProcessor initWorld "US").1.1.2
   = Some "failed to download and process data: received non-200 response: 404").
Proof. vm_compute. repeat split. Qed.

(** [bufio.ScanLines]: the carriage return before a line feed is dropped,
    and a final line needs no terminator. *)
Example scan_lines_sample :
  Bufio.scanLines
    (Strings.Join ["a" +:+ String "013" EmptyString; ""; "b"] (String "010" EmptyString))
  = (["a"; ""; "b"], false).
Proof. vm_compute. reflexivity. Qed.

(** ** The refresh, path by path *)

Section RefreshPaths.

Context `{GoRuntime}.
Variables (env : Env) (p : Processor) (w : World).

Lemma refresh_fresh :
  fresh p (clockAt env (ticks w)) = true ->
  downloadAndProcessData env p w = (None, p, (now env w).2).
Proof.
  intros Hf. unfold downloadAndProcessData. cbn [now]. now rewrite Hf.
Qed.

Lemma refresh_bad_request err :
  fresh p (clockAt env (ticks w)) = false ->
  newRequestError (ripeURL w) = Some err ->
  downloadAndProcessData env p w
  = (Some (Errorf_w "failed to create request: " err), p, started env w).
Proof.
  intros Hf Hu. unfold downloadAndProcessData, started. cbn [now emit ripeURL snd].
  now rewrite Hf, Hu.
Qed.

Lemma refresh_transport_error err :
  fresh p (clockAt env (ticks w)) = false ->
  newRequestError (ripeURL w) = None ->
  doAt env (doCalls w) = DoErr err ->
  downloadAndProcessData env p w
  = (Some (Errorf_w "failed to download data: " err), p, fetched env w).
Proof.
  intros Hf Hu Hd. unfold downloadAndProcessData, fetched, started.
  cbn [now emit Do ripeURL doCalls snd]. now rewrite Hf, Hu, Hd.
Qed.

Lemma refresh_bad_status resp :
  fresh p (clockAt env (ticks w)) = false ->
  newRequestError (ripeURL w) = None ->
  doAt env (doCalls w) = DoOk resp ->
  StatusCode resp <> StatusOK ->
  downloadAndProcessData env p w
  = (Some (Errorf_d "received non-200 response: " (StatusCode resp)), p,
     emit EvCloseBody (fetched env w)).
Proof.
  intros Hf Hu Hd Hs. unfold downloadAndProcessData, fetched, started.
  cbn [now emit Do ripeURL doCalls snd]. rewrite Hf, Hu, Hd.
  apply Z.eqb_neq in Hs. now rewrite Hs.
Qed.

Lemma refresh_scan_error resp m err :
  fresh p (clockAt env (ticks w)) = false ->
  newRequestError (ripeURL w) = None ->
  doAt env (doCalls w) = DoOk resp ->
  StatusCode resp = StatusOK ->
  scanBody (RespBody resp) = (m, Some err) ->
  downloadAndProcessData env p w
  = (Some (Errorf_w "error reading response: " err), p,
     emit EvCloseBody (emit EvReadBody (fetched env w))).
Proof.
  intros Hf Hu Hd Hs Hb. unfold downloadAndProcessData, fetched, started.
  cbn [now emit Do ripeURL doCalls snd]. rewrite Hf, Hu, Hd, Hs, Z.eqb_refl.
  cbn [negb]. now rewrite Hb.
Qed.

Lemma refresh_ok resp m :
  fresh p (clockAt env (ticks w)) = false ->
  newRequestError (ripeURL w) = None ->
  doAt env (doCalls w) = DoOk resp ->
  StatusCode resp = StatusOK ->
  scanBody (RespBody resp) = (m, None) ->
  downloadAndProcessData env p w
  = (None,
     {| cache := newCacheOf m; cacheTime := clockAt env (S (ticks w));
        cacheTTL := cacheTTL p |},
     emit EvCloseBody
       (emit (logProcessed (newCacheOf m)) (now env (emit EvReadBody (fetched env w))).2)).
Proof.
  intros Hf Hu Hd Hs Hb. unfold downloadAndProcessData, fetched, started.
  cbn [now emit Do ripeURL doCalls snd]. rewrite Hf, Hu, Hd, Hs, Z.eqb_refl.
  cbn [negb]. now rewrite Hb.
Qed.

(** A refresh that returns an error leaves the processor as it was. *)
Lemma refresh_error_keeps_processor e p' w' :
  downloadAndProcessData env p w = (Some e, p', w') -> p' = p.
Proof.
  unfold downloadAndProcessData. cbn [now].
  destruct (fresh p _); [congruence |].
  destruct (newRequestError _); [congruence |].
  destruct (Do env _) as [[resp | err] w1]; [| congruence].
  destruct (negb _); [congruence |].
  destruct (scanBody _) as [m [err |]]; congruence.
Qed.

(** The scanner's error: the first of a line too long and a failed read. *)
Lemma scanBody_error b :
  (scanBody b).2 = if (Bufio.scanLines (content b)).2 then Some Bufio.ErrTooLong else readErr b.
Proof.
  unfold scanBody. now destruct (Bufio.scanLines (content b)) as [lines long].
Qed.

(** Every failure of the list makes the refresh return an error, and the
    processor is the one it started from. *)
Lemma refresh_failure :
  fresh p (clockAt env (ticks w)) = false ->
  RefreshFailure env w ->
  exists e w', downloadAndProcessData env p w = (Some e, p, w').
Proof.
  intros Hf [err Hu | err Hu Hd | resp Hu Hd Hs | resp err Hu Hd Hs Hr | resp Hu Hd Hs Hl].
  - eexists _, _. eapply refresh_bad_request; eauto.
  - eexists _, _. eapply refresh_transport_error; eauto.
  - eexists _, _. eapply refresh_bad_status; eauto.
  - pose proof (scanBody_error (RespBody resp)) as He. rewrite Hr in He.
    destruct (scanBody (RespBody resp)) as [m se] eqn:Hb. cbn [snd] in He.
    assert (exists e0, se = Some e0) as [e0 ->]
      by (destruct (Bufio.scanLines _).2; eauto).
    eexists _, _. eapply refresh_scan_error; eauto.
  - pose proof (scanBody_error (RespBody resp)) as He. rewrite Hl in He.
    destruct (scanBody (RespBody resp)) as [m se] eqn:Hb. cbn [snd] in He. subst se.
    eexists _, _. eapply refresh_scan_error; eauto.
Qed.

(** The list is complete: without any of these failures a stale refresh
    succeeds. *)
Lemma refresh_succeeds :
  fresh p (clockAt env (ticks w)) = false ->
  ~ RefreshFailure env w ->
  exists p' w', downloadAndProcessData env p w = (None, p', w').
Proof.
  intros Hf Hn.
  destruct (newRequestError (ripeURL w)) as [err |] eqn:Hu.
  { destruct Hn. eapply RequestBuildFailed; eauto. }
  destruct (doAt env (doCalls w)) as [resp | err] eqn:Hd.
  2: { destruct Hn. eapply DownloadFailed; eauto. }
  destruct (Z.eq_dec (StatusCode resp) StatusOK) as [Hs | Hs].
  2: { destruct Hn. eapply UnexpectedStatus; eauto. }
  pose proof (scanBody_error (RespBody resp)) as He.
  destruct (scanBody (RespBody resp)) as [m se] eqn:Hb. cbn [snd] in He.
  destruct (Bufio.scanLines (content (RespBody resp))).2 eqn:Hl.
  { destruct Hn. eapply LineTooLong; eauto. }
  destruct (readErr (RespBody resp)) as [err |] eqn:Hr.
  { destruct Hn. eapply ReadError; eauto. }
  subst se. eexists _, _. eapply refresh_ok; eauto.
Qed.

End RefreshPaths.

(** ** The feed parser *)

Section Parser.

Context `{GoRuntime}.

(** A line without a record leaves the mapping alone. *)
Lemma processLine_skip m line : lineRecord line = None -> processLine m line = m.
Proof. intros Hr. unfold processLine. now rewrite Hr. Qed.

(** Such a line can be taken out of the feed without changing the result. *)
Lemma skipped_line_fold m pre line post :
  lineRecord line = None ->
  foldl processLine m (pre ++ line :: post) = foldl processLine m (pre ++ post).
Proof.
  intros Hr. rewrite !foldl_app. cbn [foldl]. now rewrite (processLine_skip _ _ Hr).
Qed.

(** The record of a line carries the mask computed from its count. *)
Lemma lineRecord_mask line r :
  lineRecord line = Some r -> CIDRMask r = cidrMask (Count r).
Proof.
  unfold lineRecord.
  destruct (_ || _); [discriminate |].
  destruct (_ <? _)%nat; [discriminate |].
  destruct (_ && _); [| discriminate].
  destruct (Strconv.Atoi _); [| discriminate].
  intros [= <-]. reflexivity.
Qed.

(** What an accepted line looks like, field by field. *)
Lemma lineRecord_accepted line r :
  lineRecord line = Some r ->
  Strings.HasPrefix line "#" = false /\
  Strings.TrimSpace line <> "" /\
  (6 <= length (Strings.Split line "|"))%nat /\
  nth 0 (Strings.Split line "|") "" = "ripencc" /\
  nth 2 (Strings.Split line "|") "" = "ipv4" /\
  Strconv.Atoi (nth 4 (Strings.Split line "|") "") = Some (Count r) /\
  Country r = ToUpper (nth 1 (Strings.Split line "|") "") /\
  IPStart r = nth 3 (Strings.Split line "|") "".
Proof.
  unfold lineRecord. set (parts := Strings.Split line "|"). intros Hr.
  destruct (Strings.HasPrefix line "#") eqn:Hp; [discriminate |].
  destruct (String.eqb (Strings.TrimSpace line) "") eqn:Ht; [discriminate |].
  cbn [orb] in Hr.
  destruct (length parts <? 6)%nat eqn:Hl; [discriminate |].
  destruct (String.eqb (nth 0 parts "") "ripencc") eqn:H0; [| discriminate].
  destruct (String.eqb (nth 2 parts "") "ipv4") eqn:H2; [| discriminate].
  cbn [andb] in Hr.
  destruct (Strconv.Atoi (nth 4 parts "")) as [count |] eqn:Ha; [| discriminate].
  injection Hr as <-. cbn [Country IPStart Count].
  apply String.eqb_neq in Ht. apply String.eqb_eq in H0, H2.
  apply Nat.ltb_ge in Hl. repeat split; assumption || reflexivity.
Qed.

(** And the converse: a line with these fields yields this record. *)
Lemma lineRecord_intro line count :
  Strings.HasPrefix line "#" = false ->
  Strings.TrimSpace line <> "" ->
  (6 <= length (Strings.Split line "|"))%nat ->
  nth 0 (Strings.Split line "|") "" = "ripencc" ->
  nth 2 (Strings.Split line "|") "" = "ipv4" ->
  Strconv.Atoi (nth 4 (Strings.Split line "|") "") = Some count ->
  lineRecord line
  = Some {| Country := ToUpper (nth 1 (Strings.Split line "|") "");
            IPStart := nth 3 (Strings.Split line "|") "";
            Count := count; CIDRMask := cidrMask count |}.
Proof.
  intros Hp Ht Hl H0 H2 Ha. unfold lineRecord.
  apply String.eqb_neq in Ht. apply Nat.ltb_ge in Hl.
  rewrite Hp, Ht, Hl, H0, H2, Ha. reflexivity.
Qed.

(** C6: a line whose registry is not [ripencc] or whose family is not
    [ipv4], a comment line, a line of white space only and a line of fewer
    than six fields yield no record, whatever their other fields hold: the
    line leaves the mapping as it is, and the scan gives the same mapping with
    and without it. *)
Theorem filtered_line_contributes_nothing (line : string) :
  nth 0 (Strings.Split line "|") "" <> "ripencc" \/
  nth 2 (Strings.Split line "|") "" <> "ipv4" \/
  Strings.HasPrefix line "#" = true \/
  Strings.TrimSpace line = "" \/
  (length (Strings.Split line "|") < 6)%nat ->
  lineRecord line = None /\
  (forall m, processLine m line = m) /\
  (forall m pre post,
     foldl processLine m (pre ++ line :: post) = foldl processLine m (pre ++ post)).
Proof.
  intros Hskip.
  assert (lineRecord line = None) as Hr.
  { destruct (lineRecord line) as [r |] eqn:Hr; [| reflexivity].
    destruct (lineRecord_accepted _ _ Hr) as (Hp & Ht & Hl & H0 & H2 & _).
    destruct Hskip as [Hs | [Hs | [Hs | [Hs | Hs]]]];
      [ contradiction | contradiction | congruence | contradiction | lia ]. }
  split; [exact Hr |]. split.
  - intros m. now apply processLine_skip.
  - intros m pre post. now apply skipped_line_fold.
Qed.

(** C4, as the code has it: a line whose fifth field [strconv.Atoi] rejects
    (it is not an optionally signed run of decimal digits within the range
    of [int]) yields no record, and the scan goes on: the lines after it are
    processed as if it were not there. *)
Theorem unparsable_count_skipped (line : string) :
  Strconv.Atoi (nth 4 (Strings.Split line "|") "") = None ->
  lineRecord line = None /\
  (forall m, processLine m line = m) /\
  (forall m pre post,
     foldl processLine m (pre ++ line :: post) = foldl processLine m (pre ++ post)).
Proof.
  intros Ha.
  assert (lineRecord line = None) as Hr.
  { destruct (lineRecord line) as [r |] eqn:Hr; [| reflexivity].
    destruct (lineRecord_accepted _ _ Hr) as (_ & _ & _ & _ & _ & Hc & _).
    congruence. }
  split; [exact Hr |]. split.
  - intros m. now apply processLine_skip.
  - intros m pre post. now apply skipped_line_fold.
Qed.

(** [float64] holds every integer up to [2^53] exactly. *)
Lemma float64OfInt_exact n : 0 < n < 2 ^ 53 -> Math.float64OfInt n = n.
Proof.
  intros Hn. unfold Math.float64OfInt.
  assert (Z.log2 n < 53) by (apply Z.log2_lt_pow2; lia).
  destruct (Z.leb_spec (Z.log2 n - 52) 0); [reflexivity | lia].
Qed.

(** [math.Log2] is exact on the powers of two a [float64] holds exactly. *)
Lemma intLog2_pow2 k : 0 <= k < 53 -> Math.intLog2 (2 ^ k) = k.
Proof.
  intros Hk. unfold Math.intLog2.
  assert (0 < 2 ^ k < 2 ^ 53) as Hp
    by (split; [apply Z.pow_pos_nonneg | apply Z.pow_lt_mono_r]; lia).
  rewrite (float64OfInt_exact _ Hp).
  unfold Math.fracIsHalf, Math.frexpExp. rewrite Z.log2_pow2 by lia.
  replace (k + 1 - 1) with k by lia.
  destruct Hp as [Hp _]. apply Z.ltb_lt in Hp. rewrite Hp, Z.eqb_refl. reflexivity.
Qed.

(** C5: for a count [2^k] with [0 <= k <= 32] the prefix length is exactly
    [32 - k], for the function that derives it and for the record of every
    accepted line with that count. *)
Theorem power_of_two_prefix (k : Z) :
  0 <= k <= 32 ->
  cidrMask (2 ^ k) = 32 - k /\
  (forall line r, lineRecord line = Some r -> Count r = 2 ^ k -> CIDRMask r = 32 - k).
Proof.
  intros Hk.
  assert (cidrMask (2 ^ k) = 32 - k) as Hm.
  { unfold cidrMask. rewrite intLog2_pow2 by lia. unfold Strconv.wrapInt.
    rewrite Z.mod_small by lia. lia. }
  split; [exact Hm |].
  intros line r Hr Hc. rewrite (lineRecord_mask _ _ Hr), Hc. exact Hm.
Qed.

End Parser.

(** ** The lookup and the refresh *)

Section Lookup.

Context `{GoRuntime}.
Variables (env : Env) (p : Processor) (w : World).

(** Reading the clock changes nothing a refresh failure depends on. *)
Lemma RefreshFailure_now : RefreshFailure env w -> RefreshFailure env (now env w).2.
Proof.
  intros [err Hu | err Hu Hd | resp Hu Hd Hs | resp err Hu Hd Hs Hr | resp Hu Hd Hs Hl].
  - eapply RequestBuildFailed; eauto.
  - eapply DownloadFailed; eauto.
  - eapply UnexpectedStatus; eauto.
  - eapply ReadError; eauto.
  - eapply LineTooLong; eauto.
Qed.

(** The fast path. *)
Lemma lookup_hit cc l :
  fresh p (clockAt env (ticks w)) = true ->
  cache p !! ToUpper cc = Some l ->
  GetIPListForCountry env p w cc = (l, None, p, (now env w).2).
Proof.
  intros Hf Hc. unfold GetIPListForCountry. cbn [now snd]. now rewrite Hf, Hc.
Qed.

(** The slow path, when the refresh fails and when it succeeds. *)
Lemma lookup_miss_error cc e p' w' :
  fresh p (clockAt env (ticks w)) = false \/ cache p !! ToUpper cc = None ->
  downloadAndProcessData env p (now env w).2 = (Some e, p', w') ->
  GetIPListForCountry env p w cc
  = ([], Some (Errorf_w "failed to download and process data: " e), p', w').
Proof.
  intros Hm Hr. unfold GetIPListForCountry. cbn [now]. cbn [now snd] in Hr.
  assert ((if fresh p (clockAt env (ticks w)) then cache p !! ToUpper cc else None) = None)
    as -> by (destruct Hm as [-> | ->]; [reflexivity | now destruct (fresh _ _)]).
  now rewrite Hr.
Qed.

Lemma lookup_miss_ok cc p' w' :
  fresh p (clockAt env (ticks w)) = false \/ cache p !! ToUpper cc = None ->
  downloadAndProcessData env p (now env w).2 = (None, p', w') ->
  GetIPListForCountry env p w cc = (default [] (cache p' !! ToUpper cc), None, p', w').
Proof.
  intros Hm Hr. unfold GetIPListForCountry. cbn [now]. cbn [now snd] in Hr.
  assert ((if fresh p (clockAt env (ticks w)) then cache p !! ToUpper cc else None) = None)
    as -> by (destruct Hm as [-> | ->]; [reflexivity | now destruct (fresh _ _)]).
  rewrite Hr. now destruct (cache p' !! ToUpper cc).
Qed.

(** What a stale refresh that succeeds has done. *)
Lemma refresh_ok_inv p' w' :
  fresh p (clockAt env (ticks w)) = false ->
  downloadAndProcessData env p w = (None, p', w') ->
  exists resp m,
    newRequestError (ripeURL w) = None /\
    doAt env (doCalls w) = DoOk resp /\
    StatusCode resp = StatusOK /\
    scanBody (RespBody resp) = (m, None) /\
    p' = {| cache := newCacheOf m; cacheTime := clockAt env (S (ticks w));
            cacheTTL := cacheTTL p |} /\
    doCalls w' = S (doCalls w).
Proof.
  intros Hf Hr.
  destruct (newRequestError (ripeURL w)) as [err |] eqn:Hu.
  { rewrite (refresh_bad_request _ _ _ _ Hf Hu) in Hr. discriminate. }
  destruct (doAt env (doCalls w)) as [resp | err] eqn:Hd.
  2: { rewrite (refresh_transport_error _ _ _ _ Hf Hu Hd) in Hr. discriminate. }
  destruct (Z.eq_dec (StatusCode resp) StatusOK) as [Hs | Hs].
  2: { rewrite (refresh_bad_status _ _ _ _ Hf Hu Hd Hs) in Hr. discriminate. }
  destruct (scanBody (RespBody resp)) as [m [err |]] eqn:Hb.
  { rewrite (refresh_scan_error _ _ _ _ _ _ Hf Hu Hd Hs Hb) in Hr. discriminate. }
  rewrite (refresh_ok _ _ _ _ _ Hf Hu Hd Hs Hb) in Hr. injection Hr as <- <-.
  exists resp, m. repeat split; assumption || reflexivity.
Qed.

(** C10: the status is compared with 200 itself.  Whatever other status
    the transport's response carries (201 and 204 as well), a stale refresh
    returns the error "received non-200 response: <status>", keeps the
    processor, and its effects are the log line, the call of [Do] and the
    closing of the body: the body is not read. *)
Theorem non200_status_rejected (resp : Response) :
  fresh p (clockAt env (ticks w)) = false ->
  newRequestError (ripeURL w) = None ->
  doAt env (doCalls w) = DoOk resp ->
  StatusCode resp <> 200 ->
  exists w',
    downloadAndProcessData env p w
    = (Some (errorString ("received non-200 response: " +:+ Strconv.Itoa (StatusCode resp))),
       p, w') /\
    trace w' = (trace w ++ [EvLog "Downloading IP data from RIPE NCC...";
                            EvDo (ripeURL w); EvCloseBody])%list /\
    ~ In EvReadBody [EvLog "Downloading IP data from RIPE NCC...";
                     EvDo (ripeURL w); EvCloseBody].
Proof.
  intros Hf Hu Hd Hs. eexists. split; [| split].
  - now apply refresh_bad_status.
  - unfold fetched, started. cbn [now emit Do trace ripeURL snd].
    now rewrite <- !app_assoc.
  - cbn [In]. intros [Hin | [Hin | [Hin | []]]]; discriminate.
Qed.

(** C2: when a stale refresh triggered by a lookup fails, be it on
    building the request, in the transport, on the status, on reading the
    body or on a line too long, the refresh returns an error, the lookup
    returns no list and that error wrapped, and the processor after both
    is the processor before: the cache mapping and its time stamp are
    untouched. *)
Theorem refresh_failure_atomic (cc : string) :
  fresh p (clockAt env (S (ticks w))) = false ->
  fresh p (clockAt env (ticks w)) = false \/ cache p !! ToUpper cc = None ->
  RefreshFailure env w ->
  exists e w',
    downloadAndProcessData env p (now env w).2 = (Some e, p, w') /\
    GetIPListForCountry env p w cc
    = ([], Some (wrapError ("failed to download and process data: " +:+ Error e) e), p, w') /\
    Unwrap (wrapError ("failed to download and process data: " +:+ Error e) e) = Some e.
Proof.
  intros Hf Hm Hfail.
  destruct (refresh_failure env p (now env w).2 Hf (RefreshFailure_now Hfail))
    as (e & w' & Hr).
  exists e, w'. split; [exact Hr |]. split; [| reflexivity].
  now apply lookup_miss_error.
Qed.

(** C3: a lookup on a fresh cache does not reach the transport.  When the
    cache is fresh at the lookup's reading of the clock (and, for a country
    that is not cached, still fresh when the refresh reads it again), the
    lookup returns the cached list, or the empty list for a country that is
    not cached, with no error; the processor is unchanged, [Do] has not been
    called and nothing has been logged, read or closed.  A refresh called in
    a fresh state returns [nil] at once, with the same frame. *)
Theorem fresh_lookup_stays_offline (cc : string) :
  fresh p (clockAt env (ticks w)) = true ->
  (cache p !! ToUpper cc = None -> fresh p (clockAt env (S (ticks w))) = true) ->
  exists w',
    GetIPListForCountry env p w cc = (default [] (cache p !! ToUpper cc), None, p, w') /\
    doCalls w' = doCalls w /\ trace w' = trace w /\ ripeURL w' = ripeURL w /\
    downloadAndProcessData env p w = (None, p, (now env w).2) /\
    doCalls (now env w).2 = doCalls w /\ trace (now env w).2 = trace w.
Proof.
  intros Hf Hf2.
  destruct (cache p !! ToUpper cc) as [l |] eqn:Hc.
  - exists (now env w).2. split; [now apply lookup_hit |].
    repeat split. now apply refresh_fresh.
  - exists (now env (now env w).2).2. split.
    + rewrite <- Hc. apply lookup_miss_ok; [now right |].
      apply refresh_fresh. cbn [now ticks snd]. now apply Hf2.
    + repeat split. now apply refresh_fresh.
Qed.

(** C7: a country the current snapshot has no entry for is answered with
    the empty list and no error.  The lookup misses the fast path (the cache
    is stale, or it is fresh and has no entry for the country) and the
    refresh it calls succeeds; the current snapshot is the one that refresh
    leaves, which on a fresh cache is the processor's own, untouched and
    without any call of the transport.  If it has no entry for the country,
    the lookup returns the empty list and [nil]. *)
Theorem unknown_country_is_empty (cc : string) (p' : Processor) (w' : World) :
  fresh p (clockAt env (ticks w)) = false \/ cache p !! ToUpper cc = None ->
  downloadAndProcessData env p (now env w).2 = (None, p', w') ->
  cache p' !! ToUpper cc = None ->
  GetIPListForCountry env p w cc = ([], None, p', w') /\
  (fresh p (clockAt env (S (ticks w))) = true ->
   p' = p /\ doCalls w' = doCalls w /\ trace w' = trace w).
Proof.
  intros Hm Hr Hc. split.
  - replace (@nil string) with (default [] (cache p' !! ToUpper cc)) by now rewrite Hc.
    now apply lookup_miss_ok.
  - intros Hf2. rewrite (refresh_fresh env p (now env w).2 Hf2) in Hr.
    injection Hr as <- <-. repeat split.
Qed.

End Lookup.

(** ** The snapshot a refresh installs *)

Section Snapshot.

Context `{GoRuntime}.

(** The scan loop appends to every country its records, in the order of
    the lines, and creates no entry for a country without a record. *)
Lemma scan_loop_lookup lines : forall (m : gmap string (list IPData)) (c : string),
  foldl processLine m lines !! c
  = match filter (fun r => Country r = c) (omap lineRecord lines) with
    | [] => m !! c
    | rs => Some (default [] (m !! c) ++ rs)%list
    end.
Proof.
  induction lines as [| line rest IH]; intros m c; [reflexivity |].
  cbn [foldl]. rewrite IH. unfold processLine.
  change (omap lineRecord (line :: rest))
    with (match lineRecord line with
          | Some r => r :: omap lineRecord rest
          | None => omap lineRecord rest
          end).
  destruct (lineRecord line) as [r |]; [| reflexivity].
  rewrite filter_cons. unfold appendRecord.
  destruct (decide (Country r = c)) as [-> | Hne].
  - rewrite lookup_insert_eq. cbn [default].
    destruct (filter _ (omap lineRecord rest)) as [| r' rs]; [reflexivity |].
    unfold id. now rewrite <- app_assoc.
  - now rewrite lookup_insert_ne.
Qed.

(** The cache built from a body holds, for each country, the CIDR strings
    of the feed's accepted lines of that country, in feed order. *)
Lemma newCache_lookup b m e country :
  scanBody b = (m, e) ->
  newCacheOf m !! country
  = match feedCIDRs (content b) country with [] => None | l => Some l end.
Proof.
  unfold scanBody, feedCIDRs, feedRecords, newCacheOf.
  destruct (Bufio.scanLines (content b)) as [lines long]. intros [= <- _].
  rewrite lookup_fmap, scan_loop_lookup, lookup_empty. cbn [fst].
  now destruct (filter _ (omap lineRecord lines)).
Qed.

(** C1: with an empty, stale cache and a transport that answers 200 with
    the one-line feed for US, the lookup of "us" returns exactly
    ["192.168.0.0/24"] and no error, and the cache holds that list for "US". *)
Theorem us_scenario (env : Env) (p : Processor) (w : World) :
  cache p = ∅ ->
  fresh p (clockAt env (S (ticks w))) = false ->
  newRequestError (ripeURL w) = None ->
  doAt env (doCalls w) = okResponse "ripencc|US|ipv4|192.168.0.0|256|20220101|allocated" ->
  exists p' w',
    GetIPListForCountry env p w "us" = (["192.168.0.0/24"], None, p', w') /\
    cache p' = {[ "US" := ["192.168.0.0/24"] ]} /\
    doCalls w' = S (doCalls w).
Proof.
  intros Hc Hf Hu Hd.
  assert (scanBody {| content := usFeed; readErr := None |}
          = ({[ "US" := [ {| Country := "US"; IPStart := "192.168.0.0";
                             Count := 256; CIDRMask := 24 |} ] ]}, None)) as Hb
    by (vm_compute; reflexivity).
  pose proof (refresh_ok env p (now env w).2 _ _ Hf Hu Hd eq_refl Hb) as Hr.
  eexists _, _. split; [| split].
  - rewrite (lookup_miss_ok env p w "us" _ _ (or_intror (eq_trans (f_equal (fun c => c !! _) Hc) (lookup_empty _))) Hr).
    reflexivity.
  - cbn [cache]. unfold newCacheOf. rewrite map_fmap_singleton. reflexivity.
  - reflexivity.
Qed.

(** C9, as the code has it: when the clock does not run backwards
    between the two readings of a refresh, and either the time to live is
    positive or the clock has moved on between these readings from an
    instant not before the stored time stamp, a refresh that succeeds by
    fetching records a time stamp strictly greater than the one it
    replaces; a refresh that fails, and one that returns at once because the
    cache is fresh, leave the time stamp as it was. *)
Theorem refresh_timestamp_increases
  (env : Env) (p p' : Processor) (w w' : World) (e : option error) :
  clockAt env (ticks w) <= clockAt env (S (ticks w)) ->
  0 < cacheTTL p \/
  (cacheTime p <= clockAt env (ticks w) /\ clockAt env (ticks w) < clockAt env (S (ticks w))) ->
  downloadAndProcessData env p w = (e, p', w') ->
  (e = None -> fresh p (clockAt env (ticks w)) = false ->
   cacheTime p < cacheTime p' /\ cacheTime p' = clockAt env (S (ticks w))) /\
  (e <> None -> cacheTime p' = cacheTime p) /\
  (fresh p (clockAt env (ticks w)) = true -> cacheTime p' = cacheTime p) /\
  cacheTime p <= cacheTime p'.
Proof.
  intros Hmono Hadv Hr.
  assert (fresh p (clockAt env (ticks w)) = false -> cacheTime p < clockAt env (S (ticks w)))
    as Hstale.
  { destruct Hadv as [Httl | [Hle Hlt]]; [| lia].
    unfold fresh, Time.Sub, Time.minDuration, Time.maxDuration. intros Hs.
    apply Z.ltb_ge in Hs.
    destruct (Z.ltb_spec (clockAt env (ticks w) - cacheTime p) (- 2 ^ 63)); [lia |].
    destruct (Z.ltb_spec (2 ^ 63 - 1) (clockAt env (ticks w) - cacheTime p)); lia. }
  destruct (fresh p (clockAt env (ticks w))) eqn:Hf.
  - rewrite (refresh_fresh env p w Hf) in Hr. injection Hr as <- <- <-.
    repeat split; try reflexivity; try discriminate; lia.
  - destruct e as [err |].
    + apply refresh_error_keeps_processor in Hr as ->.
      repeat split; try reflexivity; try discriminate; lia.
    + destruct (refresh_ok_inv env p w p' w' Hf Hr) as (resp & m & _ & _ & _ & _ & -> & _).
      cbn [cacheTime]. specialize (Hstale eq_refl).
      repeat split; try discriminate; try reflexivity; try lia. congruence.
Qed.

End Snapshot.

(** ** The theorems on concrete runs *)

Lemma us_scenario_run :
  exists p' w',
    GetIPListForCountry (H := refRuntime) (tickingEnv (okResponse usFeed)) staleProcessor
      initWorld "us"
    = (["192.168.0.0/24"], None, p', w') /\
    cache p' = {[ "US" := ["192.168.0.0/24"] ]} /\
    doCalls w' = S (doCalls initWorld).
Proof.
  apply (us_scenario (H := refRuntime) (tickingEnv (okResponse usFeed)) staleProcessor initWorld);
    reflexivity.
Defined.

Lemma refresh_failure_atomic_run :
  exists e w',
    downloadAndProcessData (H := refRuntime) (tickingEnv (statusResponse 500 "")) staleProcessor
      (now (tickingEnv (statusResponse 500 "")) initWorld).2
    = (Some e, staleProcessor, w') /\
    GetIPListForCountry (H := refRuntime) (tickingEnv (statusResponse 500 "")) staleProcessor
      initWorld "US"
    = ([], Some (wrapError ("failed to download and process data: " +:+ Error e) e),
       staleProcessor, w') /\
    Unwrap (wrapError ("failed to download and process data: " +:+ Error e) e) = Some e.
Proof.
  apply (refresh_failure_atomic (H := refRuntime) (tickingEnv (statusResponse 500 ""))
           staleProcessor initWorld "US").
  - reflexivity.
  - left. reflexivity.
  - apply (UnexpectedStatus (H := refRuntime) _ _
             {| StatusCode := 500; RespBody := {| content := ""; readErr := None |} |}).
    + reflexivity.
    + reflexivity.
    + discriminate.
Defined.

Lemma fresh_lookup_run :
  exists w',
    GetIPListForCountry (H := refRuntime) (tickingEnv (DoErr (errorString "unreachable")))
      freshProcessor initWorld "us"
    = (default [] (cache freshProcessor !! ToUpper (H := refRuntime) "us"), None,
       freshProcessor, w') /\
    doCalls w' = doCalls initWorld /\ trace w' = trace initWorld /\
    ripeURL w' = ripeURL initWorld /\
    downloadAndProcessData (H := refRuntime) (tickingEnv (DoErr (errorString "unreachable")))
      freshProcessor initWorld
    = (None, freshProcessor, (now (tickingEnv (DoErr (errorString "unreachable"))) initWorld).2) /\
    doCalls (now (tickingEnv (DoErr (errorString "unreachable"))) initWorld).2
    = doCalls initWorld /\
    trace (now (tickingEnv (DoErr (errorString "unreachable"))) initWorld).2 = trace initWorld.
Proof.
  apply (fresh_lookup_stays_offline (H := refRuntime)
           (tickingEnv (DoErr (errorString "unreachable"))) freshProcessor initWorld "us").
  - reflexivity.
  - intros _. reflexivity.
Defined.

Lemma unparsable_count_run :
  lineRecord (H := refRuntime) deFeedBadCount = None /\
  (forall m, processLine (H := refRuntime) m deFeedBadCount = m) /\
  (forall m pre post,
     foldl (processLine (H := refRuntime)) m (pre ++ deFeedBadCount :: post)
     = foldl (processLine (H := refRuntime)) m (pre ++ post)).
Proof.
  apply (unparsable_count_skipped (H := refRuntime) deFeedBadCount). reflexivity.
Defined.

(** C4 does not hold as stated: [strconv.Atoi] accepts "0" and "-256", the
    code asks for nothing more, and each of the two lines yields a record (with
    a prefix length that is no prefix length), under every runtime. *)
Lemma nonpositive_count_yields_record :
  Strconv.Atoi (nth 4 (Strings.Split zeroCountLine "|") "") = Some 0 /\
  Strconv.Atoi (nth 4 (Strings.Split negativeCountLine "|") "") = Some (-256) /\
  lineRecord (H := refRuntime) zeroCountLine
  = Some {| Country := "US"; IPStart := "10.0.0.0"; Count := 0;
            CIDRMask := -9223372036854775776 |} /\
  lineRecord (H := refRuntime) negativeCountLine
  = Some {| Country := "US"; IPStart := "10.0.0.0"; Count := -256;
            CIDRMask := -9223372036854775776 |} /\
  processLine (H := refRuntime) ∅ zeroCountLine <> ∅ /\
  (forall rt : GoRuntime,
     lineRecord (H := rt) zeroCountLine <> None /\
     lineRecord (H := rt) negativeCountLine <> None).
Proof.
  split; [vm_compute; reflexivity |]. split; [vm_compute; reflexivity |].
  split; [vm_compute; reflexivity |]. split; [vm_compute; reflexivity |].
  split.
  - intros Heq. apply (f_equal (fun m => m !! "US")) in Heq.
    vm_compute in Heq. discriminate.
  - intros rt. split.
    + rewrite (lineRecord_intro (H := rt) zeroCountLine 0);
        [discriminate | vm_compute; reflexivity | vm_compute; discriminate
        | vm_compute; lia | vm_compute; reflexivity ..].
    + rewrite (lineRecord_intro (H := rt) negativeCountLine (-256));
        [discriminate | vm_compute; reflexivity | vm_compute; discriminate
        | vm_compute; lia | vm_compute; reflexivity ..].
Qed.

Lemma power_of_two_prefix_run :
  cidrMask (H := refRuntime) (2 ^ 8) = 32 - 8 /\
  (forall line r,
     lineRecord (H := refRuntime) line = Some r -> Count r = 2 ^ 8 -> CIDRMask r = 32 - 8).
Proof.
  apply (power_of_two_prefix (H := refRuntime) 8). lia.
Defined.

Lemma filtered_line_run :
  lineRecord (H := refRuntime) apnicLine = None /\
  (forall m, processLine (H := refRuntime) m apnicLine = m) /\
  (forall m pre post,
     foldl (processLine (H := refRuntime)) m (pre ++ apnicLine :: post)
     = foldl (processLine (H := refRuntime)) m (pre ++ post)).
Proof.
  apply (filtered_line_contributes_nothing (H := refRuntime) apnicLine).
  left. vm_compute. discriminate.
Defined.

Lemma unknown_country_run :
  GetIPListForCountry (H := refRuntime) (tickingEnv (DoErr (errorString "unreachable")))
    freshProcessor initWorld "xx"
  = ([], None, freshProcessor,
     (now (tickingEnv (DoErr (errorString "unreachable")))
        (now (tickingEnv (DoErr (errorString "unreachable"))) initWorld).2).2) /\
  (fresh freshProcessor
     (clockAt (tickingEnv (DoErr (errorString "unreachable"))) (S (ticks initWorld))) = true ->
   freshProcessor = freshProcessor /\
   doCalls (now (tickingEnv (DoErr (errorString "unreachable")))
              (now (tickingEnv (DoErr (errorString "unreachable"))) initWorld).2).2
   = doCalls initWorld /\
   trace (now (tickingEnv (DoErr (errorString "unreachable")))
            (now (tickingEnv (DoErr (errorString "unreachable"))) initWorld).2).2
   = trace initWorld).
Proof.
  apply (unknown_country_is_empty (H := refRuntime)
           (tickingEnv (DoErr (errorString "unreachable"))) freshProcessor initWorld "xx").
  - right. vm_compute. reflexivity.
  - vm_compute. reflexivity.
  - vm_compute. reflexivity.
Defined.

Lemma refresh_timestamp_run :
  (usRefresh.1.1 = None ->
   fresh staleProcessor (clockAt (tickingEnv (okResponse usFeed)) (ticks initWorld)) = false ->
   cacheTime staleProcessor < cacheTime usRefresh.1.2 /\
   cacheTime usRefresh.1.2 = clockAt (tickingEnv (okResponse usFeed)) (S (ticks initWorld))) /\
  (usRefresh.1.1 <> None -> cacheTime usRefresh.1.2 = cacheTime staleProcessor) /\
  (fresh staleProcessor (clockAt (tickingEnv (okResponse usFeed)) (ticks initWorld)) = true ->
   cacheTime usRefresh.1.2 = cacheTime staleProcessor) /\
  cacheTime staleProcessor <= cacheTime usRefresh.1.2.
Proof.
  apply (refresh_timestamp_increases (H := refRuntime) (tickingEnv (okResponse usFeed))
           staleProcessor usRefresh.1.2 initWorld usRefresh.2 usRefresh.1.1).
  - vm_compute. discriminate.
  - left. reflexivity.
  - vm_compute. reflexivity.
Defined.

(** C9 does not hold as stated: with a time to live of zero and a clock
    that gives the same reading throughout, two refreshes in a row both
    fetch and succeed, and the second records the time stamp the first
    recorded, not a greater one. *)
Lemma equal_timestamps_after_two_refreshes :
  firstRefresh.1.1 = None /\ secondRefresh.1.1 = None /\
  doCalls firstRefresh.2 = 1%nat /\ doCalls secondRefresh.2 = 2%nat /\
  cacheTime firstRefresh.1.2 = 1000 /\ cacheTime secondRefresh.1.2 = 1000 /\
  ~ cacheTime firstRefresh.1.2 < cacheTime secondRefresh.1.2.
Proof.
  repeat split; try (vm_compute; reflexivity).
  vm_compute. discriminate.
Qed.

Lemma non200_status_run :
  exists w',
    downloadAndProcessData (H := refRuntime) (tickingEnv (statusResponse 204 "")) staleProcessor
      initWorld
    = (Some (errorString ("received non-200 response: " +:+ Strconv.Itoa 204)),
       staleProcessor, w') /\
    trace w' = (trace initWorld ++ [EvLog "Downloading IP data from RIPE NCC...";
                                    EvDo (ripeURL initWorld); EvCloseBody])%list /\
    ~ In EvReadBody [EvLog "Downloading IP data from RIPE NCC...";
                     EvDo (ripeURL initWorld); EvCloseBody].
Proof.
  apply (non200_status_rejected (H := refRuntime) (tickingEnv (statusResponse 204 ""))
           staleProcessor initWorld
           {| StatusCode := 204; RespBody := {| content := ""; readErr := None |} |}).
  - reflexivity.
  - reflexivity.
  - reflexivity.
  - discriminate.
Defined.

(** * Strings *)

(** Facts about the concatenation of strings. *)
Lemma append_cons (x : ascii) (a b : string) : String x a +:+ b = String x (a +:+ b).
Proof. reflexivity. Qed.

Lemma append_nil_r (s : string) : s +:+ EmptyString = s.
Proof. induction s as [| c s IH]; [reflexivity |]. now rewrite append_cons, IH. Qed.

Lemma append_assoc (a b c : string) : (a +:+ b) +:+ c = a +:+ (b +:+ c).
Proof. induction a as [| x a IH]; [reflexivity |]. now rewrite !append_cons, IH. Qed.

Lemma hasByte_append (c : ascii) (a b : string) :
  hasByte c (a +:+ b) = hasByte c a || hasByte c b.
Proof.
  induction a as [| x a IH]; [reflexivity |].
  rewrite append_cons. cbn [hasByte]. now rewrite IH, orb_assoc.
Qed.

(** Splitting after a field that has no separator in it. *)
Lemma Split_append_sep (a b : string) (sep : ascii) :
  hasByte sep a = false ->
  Strings.Split (a +:+ String sep b) sep = a :: Strings.Split b sep.
Proof.
  induction a as [| x a IH]; intros Hn.
  - cbn [String.append Strings.Split]. change (EmptyString +:+ String sep b) with (String sep b).
    cbn [Strings.Split]. now rewrite Ascii.eqb_refl.
  - cbn [hasByte] in Hn. apply orb_false_iff in Hn as [Hx Ha].
    rewrite append_cons. cbn [Strings.Split]. rewrite Hx, (IH Ha). reflexivity.
Qed.

(** A string without the separator is one field. *)
Lemma Split_no_sep (s : string) (sep : ascii) :
  hasByte sep s = false -> Strings.Split s sep = [s].
Proof.
  induction s as [| x s IH]; intros Hn; [reflexivity |].
  cbn [hasByte] in Hn. apply orb_false_iff in Hn as [Hx Hs].
  cbn [Strings.Split]. now rewrite Hx, (IH Hs).
Qed.


(** * The fields a feed line is read from *)

Section Fields.

Context `{GoRuntime}.

(** No byte of a white-space rune is the field separator. *)
Lemma spaceRuneLen_bytes (l : list N) :
  Forall (fun n => n <> 124%N) (take (Strings.spaceRuneLen l) l).
Proof.
  unfold Strings.spaceRuneLen, Strings.asciiSpace.
  destruct l as [| a [| b [| c l]]]; cbn [take]; try constructor;
    repeat match goal with
    | |- context [if ?t then _ else _] => destruct t eqn:?
    end; cbn [take]; repeat constructor;
    repeat (progress rewrite ?andb_true_iff, ?orb_true_iff, ?N.eqb_eq, ?N.leb_le in * ); lia.
Qed.

Lemma spaceRuneLenRev_bytes (l : list N) :
  Forall (fun n => n <> 124%N) (take (Strings.spaceRuneLenRev l) l).
Proof.
  unfold Strings.spaceRuneLenRev, Strings.asciiSpace.
  destruct l as [| a [| b [| c l]]]; cbn [take]; try constructor.
  - destruct (_ || _)%bool eqn:E; cbn [take]; repeat constructor.
    rewrite ?orb_true_iff, ?N.eqb_eq in E. lia.
  - destruct (_ || _)%bool eqn:E; cbn [take]; repeat constructor.
    + rewrite ?orb_true_iff, ?N.eqb_eq in E. lia.
    + destruct (Nat.eqb_spec (Strings.spaceRuneLen [b; a]) 2) as [E2 | _]; cbn [take];
        repeat constructor;
        pose proof (spaceRuneLen_bytes [b; a]) as Hb; rewrite E2 in Hb; cbn [take] in Hb;
        inversion Hb as [| ? ? ? Hb']; subst; inversion Hb'; subst; assumption.
  - destruct (_ || _)%bool eqn:E; cbn [take]; repeat constructor.
    + rewrite ?orb_true_iff, ?N.eqb_eq in E. lia.
    + destruct (Nat.eqb_spec (Strings.spaceRuneLen [b; a]) 2) as [E2 | _]; cbn [take].
      * pose proof (spaceRuneLen_bytes [b; a]) as Hb; rewrite E2 in Hb; cbn [take] in Hb.
        inversion Hb as [| ? ? ? Hb']; subst; inversion Hb'; subst.
        repeat constructor; assumption.
      * destruct (Nat.eqb_spec (Strings.spaceRuneLen [c; b; a]) 3) as [E3 | _]; cbn [take];
          repeat constructor;
          pose proof (spaceRuneLen_bytes [c; b; a]) as Hb; rewrite E3 in Hb; cbn [take] in Hb;
          inversion Hb as [| ? ? ? Hb']; subst; inversion Hb' as [| ? ? ? Hb'']; subst;
          inversion Hb''; subst; assumption.
Qed.

(** What the trimming removes are bytes of white-space runes. *)
Lemma trimWith_bytes (len : list N -> nat) (fuel : nat) (l : list N) :
  (forall l', Forall (fun n => n <> 124%N) (take (len l') l')) ->
  Forall (fun n => n <> 124%N) (Strings.trimWith len fuel l) ->
  Forall (fun n => n <> 124%N) l.
Proof.
  intros Hlen. revert l. induction fuel as [| fuel IH]; intros l Ht; [exact Ht |].
  cbn [Strings.trimWith] in Ht. destruct (len l) as [| n] eqn:E; [exact Ht |].
  apply IH in Ht. rewrite <- (take_drop (Datatypes.S n) l).
  apply Forall_app. split; [| exact Ht]. rewrite <- E. apply Hlen.
Qed.

Lemma hasByte_bytes (s : string) :
  Forall (fun n => n <> 124%N) (map Bytes.val (Bytes.toList s)) -> hasByte "|" s = false.
Proof.
  induction s as [| c s IH]; intros Hs; [reflexivity |].
  cbn [Bytes.toList list_ascii_of_string map] in Hs. inversion Hs as [| ? ? Hc Hr]; subst.
  cbn [hasByte]. rewrite (IH Hr), orb_false_r.
  destruct (Ascii.eqb_spec c "|") as [-> | _]; [| reflexivity].
  exfalso. apply Hc. reflexivity.
Qed.

(** A line of white space only has no field separator. *)
Lemma blank_line_one_field (line : string) :
  Strings.TrimSpace line = EmptyString -> Strings.Split line "|" = [line].
Proof.
  intros Ht. apply Split_no_sep, hasByte_bytes.
  unfold Strings.TrimSpace in Ht.
  set (l := map Bytes.val (Bytes.toList line)) in *.
  set (l1 := Strings.trimWith Strings.spaceRuneLen (length l) l) in *.
  set (t := Strings.trimWith Strings.spaceRuneLenRev (length l1) (rev l1)) in *.
  assert (Ht' : t = []).
  { destruct (rev t) as [| x q] eqn:E.
    - rewrite <- (rev_involutive t), E. reflexivity.
    - cbn in Ht. discriminate Ht. }
  apply (trimWith_bytes Strings.spaceRuneLen (length l)); [apply spaceRuneLen_bytes |].
  fold l1. rewrite <- (rev_involutive l1). apply Forall_rev.
  apply (trimWith_bytes Strings.spaceRuneLenRev (length l1)); [apply spaceRuneLenRev_bytes |].
  fold t. rewrite Ht'. constructor.
Qed.

(** A comment line does not start with the registry name. *)
Lemma comment_line_first_field (line : string) :
  Strings.HasPrefix line "#" = true ->
  String.eqb (nth 0 (Strings.Split line "|") "") "ripencc" = false.
Proof.
  unfold Strings.HasPrefix. destruct line as [| c line]; [discriminate |].
  cbn [String.prefix]. destruct (ascii_dec "#" c) as [<- | _]; [| discriminate].
  intros _. cbn [Strings.Split]. change (Ascii.eqb "#" "|") with false. cbv iota.
  destruct (Strings.Split line "|"); reflexivity.
Qed.

(** With six fields or more the two guards at the head of the loop body
    decide nothing: the record is read from the fields alone. *)
Lemma lineRecord_fields (line : string) :
  (6 <= length (Strings.Split line "|"))%nat ->
  lineRecord line
  = let parts := Strings.Split line "|" in
    if String.eqb (nth 0 parts "") "ripencc" && String.eqb (nth 2 parts "") "ipv4" then
      match Strconv.Atoi (nth 4 parts "") with
      | None => None
      | Some count =>
          Some {| Country := ToUpper (nth 1 parts ""); IPStart := nth 3 parts "";
                  Count := count; CIDRMask := cidrMask count |}
      end
    else None.
Proof.
  intros Hlen. unfold lineRecord. cbv zeta.
  destruct (Strings.HasPrefix line "#") eqn:Hc.
  - cbn [orb]. now rewrite (comment_line_first_field line Hc).
  - cbn [orb]. destruct (String.eqb_spec (Strings.TrimSpace line) "") as [Hb | _].
    + rewrite (blank_line_one_field line Hb) in Hlen. cbn in Hlen. lia.
    + destruct (Nat.ltb_spec (length (Strings.Split line "|")) 6); [lia | reflexivity].
Qed.

(** X17: a record is read from the first five fields of its line.  Two
    lines of six fields or more that agree on their first five fields give
    the same record, or are both skipped: the date, the status and whatever
    follows them never reach the cache. *)
Theorem record_reads_first_five_fields (line1 line2 : string) :
  (6 <= length (Strings.Split line1 "|"))%nat ->
  (6 <= length (Strings.Split line2 "|"))%nat ->
  (forall i, (i < 5)%nat ->
     nth i (Strings.Split line1 "|") "" = nth i (Strings.Split line2 "|") "") ->
  lineRecord line1 = lineRecord line2.
Proof.
  intros H1 H2 Hf. rewrite (lineRecord_fields line1 H1), (lineRecord_fields line2 H2). cbv zeta.
  rewrite <- (Hf 0%nat), <- (Hf 1%nat), <- (Hf 2%nat), <- (Hf 3%nat), <- (Hf 4%nat) by lia.
  reflexivity.
Qed.

End Fields.

(** * What the scan loop reads, against the specification's feed *)

Section FeedReading.

Context `{GoRuntime}.















End FeedReading.

(** * Further properties of the processor *)

Section Effects.

Context `{GoRuntime}.

(** What a refresh does to the world and to the time to live, on every
    path: the address is kept, the clock is read once or twice, and the
    transport is called once exactly when the cache is stale and the request
    could be built. *)
Lemma refresh_effects (env : Env) (p : Processor) (w : World) :
  ripeURL (downloadAndProcessData env p w).2 = ripeURL w /\
  cacheTTL (downloadAndProcessData env p w).1.2 = cacheTTL p /\
  (ticks w < ticks (downloadAndProcessData env p w).2 <= ticks w + 2)%nat /\
  doCalls (downloadAndProcessData env p w).2
  = (doCalls w +
     if fresh p (clockAt env (ticks w)) then 0
     else match newRequestError (ripeURL w) with Some _ => 0 | None => 1 end)%nat.
Proof.
  destruct (fresh p (clockAt env (ticks w))) eqn:Hf.
  { rewrite (refresh_fresh env p w Hf). cbn. repeat split; lia. }
  destruct (newRequestError (ripeURL w)) as [err |] eqn:Hu.
  { rewrite (refresh_bad_request env p w err Hf Hu). cbn. repeat split; lia. }
  destruct (doAt env (doCalls w)) as [resp | err] eqn:Hd.
  2: { rewrite (refresh_transport_error env p w err Hf Hu Hd). cbn. repeat split; lia. }
  destruct (Z.eq_dec (StatusCode resp) StatusOK) as [Hs | Hs].
  2: { rewrite (refresh_bad_status env p w resp Hf Hu Hd Hs). cbn. repeat split; lia. }
  destruct (scanBody (RespBody resp)) as [m [err |]] eqn:Hb.
  { rewrite (refresh_scan_error env p w resp m err Hf Hu Hd Hs Hb). cbn. repeat split; lia. }
  rewrite (refresh_ok env p w resp m Hf Hu Hd Hs Hb). cbn. repeat split; lia.
Qed.

(** The lookup in terms of the refresh it may call. *)
Lemma lookup_unfold (env : Env) (p : Processor) (w : World) (cc : string) :
  GetIPListForCountry env p w cc
  = match (if fresh p (clockAt env (ticks w)) then cache p !! ToUpper cc else None) with
    | Some ipList => (ipList, None, p, (now env w).2)
    | None =>
        match (downloadAndProcessData env p (now env w).2).1.1 with
        | Some e =>
            ([], Some (Errorf_w "failed to download and process data: " e),
             (downloadAndProcessData env p (now env w).2).1.2,
             (downloadAndProcessData env p (now env w).2).2)
        | None =>
            (default [] (cache (downloadAndProcessData env p (now env w).2).1.2 !! ToUpper cc),
             None,
             (downloadAndProcessData env p (now env w).2).1.2,
             (downloadAndProcessData env p (now env w).2).2)
        end
    end.
Proof.
  unfold GetIPListForCountry. cbn [now snd].
  destruct (if fresh p (clockAt env (ticks w)) then cache p !! ToUpper cc else None);
    [reflexivity |].
  destruct (downloadAndProcessData env p _) as [[[e |] p'] w']; cbn [fst snd];
    [reflexivity |].
  now destruct (cache p' !! ToUpper cc).
Qed.

(** The processor and the world after a lookup that went to the refresh
    are those the refresh left. *)
Lemma lookup_miss_state (env : Env) (p : Processor) (w : World) (cc : string) :
  (if fresh p (clockAt env (ticks w)) then cache p !! ToUpper cc else None) = None ->
  (GetIPListForCountry env p w cc).1.2 = (downloadAndProcessData env p (now env w).2).1.2 /\
  (GetIPListForCountry env p w cc).2 = (downloadAndProcessData env p (now env w).2).2.
Proof.
  intros Hm. rewrite lookup_unfold, Hm.
  now destruct (downloadAndProcessData env p (now env w).2).1.1.
Qed.

(** The number of transport calls of a lookup. *)
Lemma lookup_doCalls (env : Env) (p : Processor) (w : World) (cc : string) :
  doCalls (GetIPListForCountry env p w cc).2
  = (doCalls w +
     match (if fresh p (clockAt env (ticks w)) then cache p !! ToUpper cc else None) with
     | Some _ => 0
     | None =>
         if fresh p (clockAt env (S (ticks w))) then 0
         else match newRequestError (ripeURL w) with Some _ => 0 | None => 1 end
     end)%nat /\
  ripeURL (GetIPListForCountry env p w cc).2 = ripeURL w /\
  (ticks w < ticks (GetIPListForCountry env p w cc).2)%nat.
Proof.
  destruct (refresh_effects env p (now env w).2) as (Hu1 & _ & Ht1 & Hd1).
  change (ripeURL (now env w).2) with (ripeURL w) in Hu1, Hd1.
  change (ticks (now env w).2) with (S (ticks w)) in Hd1, Ht1.
  change (doCalls (now env w).2) with (doCalls w) in Hd1.
  destruct (if fresh p (clockAt env (ticks w)) then cache p !! ToUpper cc else None)
    as [l |] eqn:Hm.
  - rewrite lookup_unfold, Hm. cbn [now snd fst doCalls ripeURL ticks].
    repeat split; lia.
  - destruct (lookup_miss_state env p w cc Hm) as [_ ->].
    rewrite Hd1, Hu1. repeat split; lia.
Qed.

(** X1: a lookup calls the transport at most once, and exactly once when
    it misses the fast path, the refresh finds the cache stale and the
    request can be built; a refresh by itself likewise.  Neither changes the
    feed address. *)
Theorem lookup_transport_calls (env : Env) (p : Processor) (w : World) (cc : string) :
  doCalls (GetIPListForCountry env p w cc).2
  = (doCalls w +
     match (if fresh p (clockAt env (ticks w)) then cache p !! ToUpper cc else None) with
     | Some _ => 0
     | None =>
         if fresh p (clockAt env (S (ticks w))) then 0
         else match newRequestError (ripeURL w) with Some _ => 0 | None => 1 end
     end)%nat /\
  (doCalls (GetIPListForCountry env p w cc).2 <= S (doCalls w))%nat /\
  (doCalls (downloadAndProcessData env p w).2 <= S (doCalls w))%nat /\
  ripeURL (GetIPListForCountry env p w cc).2 = ripeURL w /\
  ripeURL (downloadAndProcessData env p w).2 = ripeURL w.
Proof.
  destruct (refresh_effects env p w) as (Hu0 & _ & _ & Hd0).
  destruct (lookup_doCalls env p w cc) as (Hd & Hu & _).
  split; [exact Hd |]. split; [| split; [| split; assumption]].
  - rewrite Hd.
    destruct (if fresh p (clockAt env (ticks w)) then cache p !! ToUpper cc else None);
      [lia |].
    destruct (fresh p (clockAt env (S (ticks w)))); [lia |].
    destruct (newRequestError _); lia.
  - rewrite Hd0. destruct (fresh p _); [lia |]. destruct (newRequestError _); lia.
Qed.

(** The saturated difference grows with the later instant, so a cache
    that is stale stays stale. *)
Lemma Sub_mono (t t' u : Z) : t <= t' -> Time.Sub t u <= Time.Sub t' u.
Proof.
  intros Hle. unfold Time.Sub, Time.minDuration, Time.maxDuration.
  destruct (Z.ltb_spec (t - u) (- 2 ^ 63)), (Z.ltb_spec (t' - u) (- 2 ^ 63));
    destruct (Z.ltb_spec (2 ^ 63 - 1) (t - u)), (Z.ltb_spec (2 ^ 63 - 1) (t' - u)); lia.
Qed.

Lemma stale_later (p : Processor) (t t' : Z) :
  t <= t' -> fresh p t = false -> fresh p t' = false.
Proof.
  unfold fresh. intros Hle Hs. apply Z.ltb_ge in Hs. apply Z.ltb_ge.
  pose proof (Sub_mono t t' (cacheTime p) Hle). lia.
Qed.


(** A lookup that returned an error went through a refresh that found the
    cache stale and failed. *)
Lemma lookup_error_inv (env : Env) (p : Processor) (w : World) (cc : string)
  (l : list string) (e : error) (p1 : Processor) (w1 : World) :
  GetIPListForCountry env p w cc = (l, Some e, p1, w1) ->
  exists e0,
    downloadAndProcessData env p (now env w).2 = (Some e0, p, w1) /\
    fresh p (clockAt env (S (ticks w))) = false /\
    l = [] /\ p1 = p /\ e = Errorf_w "failed to download and process data: " e0.
Proof.
  rewrite lookup_unfold.
  destruct (if fresh p (clockAt env (ticks w)) then cache p !! ToUpper cc else None);
    [discriminate |].
  destruct (downloadAndProcessData env p (now env w).2) as [[[e0 |] p'] w'] eqn:Hr;
    cbn [fst snd]; [| discriminate].
  intros [= <- <- <- <-]. exists e0.
  pose proof (refresh_error_keeps_processor env p _ _ _ _ Hr) as ->.
  repeat split; try reflexivity.
  destruct (fresh p (clockAt env (S (ticks w)))) eqn:Hf; [| reflexivity].
  rewrite (refresh_fresh env p (now env w).2 Hf) in Hr. discriminate.
Qed.

(** X2: errors are not cached.  Under a clock that does not run
    backwards, after a lookup that failed although the request could be
    built, the transport has been called once, the processor is as it was,
    and the next lookup, for any country, calls the transport again. *)
Theorem failed_lookup_is_retried (env : Env) (p : Processor) (w : World) (cc cc2 : string)
  (l : list string) (e : error) (p1 : Processor) (w1 : World) :
  (forall i j, (i <= j)%nat -> clockAt env i <= clockAt env j) ->
  newRequestError (ripeURL w) = None ->
  GetIPListForCountry env p w cc = (l, Some e, p1, w1) ->
  p1 = p /\ doCalls w1 = S (doCalls w) /\
  doCalls (GetIPListForCountry env p1 w1 cc2).2 = S (doCalls w1).
Proof.
  intros Hmono Hu Hl.
  destruct (lookup_error_inv env p w cc l e p1 w1 Hl) as (e0 & Hr & Hs & _ & -> & _).
  destruct (lookup_doCalls env p w cc) as (Hd & Hurl & Ht).
  rewrite Hl in Hd, Hurl, Ht. cbn [snd] in Hd, Hurl, Ht.
  destruct (refresh_effects env p (now env w).2) as (_ & _ & Ht1 & _).
  rewrite Hr in Ht1. cbn [snd now ticks] in Ht1.
  assert ((if fresh p (clockAt env (ticks w)) then cache p !! ToUpper cc else None) = None)
    as Hm.
  { destruct (if fresh p (clockAt env (ticks w)) then cache p !! ToUpper cc else None)
      eqn:Hm; [| reflexivity].
    rewrite lookup_unfold, Hm in Hl. discriminate. }
  rewrite Hm, Hs, Hu in Hd.
  split; [reflexivity |]. split; [lia |].
  destruct (lookup_doCalls env p w1 cc2) as (Hd2 & _ & _). rewrite Hd2, Hurl, Hu.
  rewrite (stale_later p _ (clockAt env (ticks w1)) (Hmono (S (ticks w)) (ticks w1) ltac:(lia)) Hs).
  rewrite (stale_later p _ (clockAt env (S (ticks w1)))
             (Hmono (S (ticks w)) (S (ticks w1)) ltac:(lia)) Hs).
  lia.
Qed.



(** A refresh never installs an empty list, and records as time stamp a
    reading of the clock. *)
Lemma refresh_step (env : Env) (p : Processor) (w : World) :
  (downloadAndProcessData env p w).1.2 = p \/
  ((forall k, cache (downloadAndProcessData env p w).1.2 !! k <> Some []) /\
   cacheTime (downloadAndProcessData env p w).1.2 = clockAt env (S (ticks w)) /\
   (S (ticks w) < ticks (downloadAndProcessData env p w).2)%nat).
Proof.
  destruct (downloadAndProcessData env p w) as [[e p'] w'] eqn:Hr. cbn [fst snd].
  destruct (fresh p (clockAt env (ticks w))) eqn:Hf.
  { rewrite (refresh_fresh env p w Hf) in Hr. injection Hr as _ <- _. now left. }
  destruct e as [err |].
  { left. eapply refresh_error_keeps_processor; eauto. }
  destruct (refresh_ok_inv env p w p' w' Hf Hr) as (resp & m & Hu & Hd & Hst & Hb & Hp & _).
  right. rewrite Hp. cbn [cache cacheTime]. split; [| split; [reflexivity |]].
  - intros k. rewrite (newCache_lookup _ _ _ k Hb).
    now destruct (feedCIDRs (content (RespBody resp)) k).
  - rewrite (refresh_ok env p w resp m Hf Hu Hd Hst Hb) in Hr. injection Hr as _ <-.
    cbn. lia.
Qed.

(** X4: an invariant of the processor's life.  In every state reached
    from a new processor by lookups: no country is mapped to an empty list;
    the time to live is the one the processor was created with; the feed
    address is the default one; and either the cache is empty with the zero
    time stamp, or the time stamp is a reading the clock has already
    given. *)
Theorem reachable_invariant (env : Env) (parsed : option Z) (p : Processor) (w : World) :
  Reachable env parsed p w ->
  (forall k, cache p !! k <> Some []) /\
  cacheTTL p = cacheTTL (NewProcessor parsed) /\
  ripeURL w = defaultRipeURL /\
  ((cache p = ∅ /\ cacheTime p = Time.zero) \/
   exists n, (n < ticks w)%nat /\ cacheTime p = clockAt env n).
Proof.
  induction 1 as [| p w cc Hreach (Hne & Httl & Hurl & Htime)].
  - repeat split; [| now left]. intros k. cbn [NewProcessor cache].
    now rewrite lookup_empty.
  - destruct (lookup_doCalls env p w cc) as (_ & Hu & Ht).
    destruct (refresh_effects env p (now env w).2) as (_ & Httl1 & Ht1 & _).
    pose proof (refresh_step env p (now env w).2) as Hstep.
    change (ticks (now env w).2) with (S (ticks w)) in Ht1, Hstep.
    assert ((GetIPListForCountry env p w cc).1.2 = p \/
            ((GetIPListForCountry env p w cc).1.2
             = (downloadAndProcessData env p (now env w).2).1.2 /\
             (GetIPListForCountry env p w cc).2
             = (downloadAndProcessData env p (now env w).2).2)) as [Hp | [Hp Hw]].
    { destruct (if fresh p (clockAt env (ticks w)) then cache p !! ToUpper cc else None)
        eqn:Hm.
      - left. now rewrite lookup_unfold, Hm.
      - right. now apply lookup_miss_state. }
    + rewrite Hp, Hu. repeat split; try assumption.
      destruct Htime as [Hz | (n & Hn & Hc)]; [now left | right].
      exists n. split; [lia | exact Hc].
    + rewrite Hu. rewrite Hp, Hw. clear Hp Hw.
      destruct Hstep as [-> | (Hne' & Hct & Hlt)].
      * repeat split; try assumption.
        destruct Htime as [Hz | (n & Hn & Hc)]; [now left | right].
        exists n. split; [lia | exact Hc].
      * repeat split; try assumption; [congruence |].
        right. exists (S (S (ticks w))). split; [lia | exact Hct].
Qed.

(** X5: when no country is mapped to an empty list (as in every reachable
    state), a lookup that succeeds keeps that property and returns the empty
    list exactly when the snapshot it answered from has no entry for the
    country. *)
Theorem empty_answer_means_unknown
  (env : Env) (p p' : Processor) (w w' : World) (cc : string) (l : list string) :
  (forall k, cache p !! k <> Some []) ->
  GetIPListForCountry env p w cc = (l, None, p', w') ->
  (forall k, cache p' !! k <> Some []) /\
  (l = [] <-> cache p' !! ToUpper cc = None) /\
  (l <> [] -> cache p' !! ToUpper cc = Some l).
Proof.
  intros Hne. rewrite lookup_unfold.
  destruct (if fresh p (clockAt env (ticks w)) then cache p !! ToUpper cc else None)
    as [l0 |] eqn:Hm.
  - intros [= <- <- <-].
    assert (cache p !! ToUpper cc = Some l0) as Hc
      by (destruct (fresh p _); [exact Hm | discriminate]).
    split; [exact Hne |]. rewrite Hc.
    split; [split |]; try congruence; try (intros ->; now apply Hne in Hc).
  - pose proof (refresh_step env p (now env w).2) as Hstep.
    destruct (downloadAndProcessData env p (now env w).2) as [[e q] wq]. cbn [fst snd] in *.
    destruct e as [err |]; [discriminate |]. intros [= <- <- <-].
    assert (forall k, cache q !! k <> Some []) as Hq
      by (destruct Hstep as [-> | (Hq & _)]; assumption).
    split; [exact Hq |].
    destruct (cache q !! ToUpper cc) as [l1 |] eqn:Hc; cbn [default]; unfold id.
    + split; [split |]; try congruence; try (intros ->; now apply Hq in Hc).
    + split; [split |]; congruence.
Qed.

(** X6: a new processor is cold.  Whatever time to live it was given
    (any value of a [Duration]), once the clock is further from the zero
    instant than a [Duration] can hold (any date after the year 293), its first
    lookup misses, finds the cache stale and, if the request can be built,
    calls the transport exactly once. *)
Theorem first_lookup_fetches (env : Env) (parsed : option Z) (cc : string) :
  cacheTTL (NewProcessor parsed) <= Time.maxDuration ->
  Time.maxDuration <= clockAt env 1 ->
  newRequestError defaultRipeURL = None ->
  fresh (NewProcessor parsed) (clockAt env 1) = false /\
  doCalls (GetIPListForCountry env (NewProcessor parsed) initWorld cc).2 = 1%nat.
Proof.
  intros Httl Hclock Hu.
  assert (fresh (NewProcessor parsed) (clockAt env 1) = false) as Hs.
  { unfold fresh, Time.Sub. cbn [NewProcessor cacheTime]. unfold Time.zero.
    apply Z.ltb_ge. revert Httl Hclock. unfold Time.maxDuration, Time.minDuration.
    cbn [NewProcessor cacheTTL]. intros Httl Hclock.
    destruct (Z.ltb_spec (clockAt env 1 - 0) (- 2 ^ 63)); [lia |].
    destruct (Z.ltb_spec (2 ^ 63 - 1) (clockAt env 1 - 0)); lia. }
  split; [exact Hs |].
  destruct (lookup_doCalls env (NewProcessor parsed) initWorld cc) as (Hd & _ & _).
  rewrite Hd. cbn [initWorld ticks doCalls ripeURL]. rewrite Hs, Hu.
  assert (cache (NewProcessor parsed) !! ToUpper cc = None) as ->
    by (cbn [NewProcessor cache]; apply lookup_empty).
  now destruct (fresh (NewProcessor parsed) (clockAt env 0)).
Qed.

(** Upper-casing a byte twice is upper-casing it once, and it keeps a byte
    inside or outside ASCII. *)
Lemma upperByte_idem (c : ascii) : Strings.upperByte (Strings.upperByte c) = Strings.upperByte c.
Proof. destruct c as [[] [] [] [] [] [] [] []]; reflexivity. Qed.

Lemma upperByte_range (c : ascii) :
  (Bytes.val (Strings.upperByte c) <? Bytes.RuneSelf)%N = (Bytes.val c <? Bytes.RuneSelf)%N.
Proof. destruct c as [[] [] [] [] [] [] [] []]; reflexivity. Qed.

Lemma upperASCII_idem (s : string) :
  Strings.upperASCII (Strings.upperASCII s) = Strings.upperASCII s.
Proof.
  induction s as [| c s IH]; [reflexivity |].
  cbn [Strings.upperASCII]. now rewrite upperByte_idem, IH.
Qed.

Lemma isASCII_upperASCII (s : string) :
  Bytes.isASCII (Strings.upperASCII s) = Bytes.isASCII s.
Proof.
  unfold Bytes.isASCII. induction s as [| c s IH]; [reflexivity |].
  cbn [Strings.upperASCII list_ascii_of_string forallb]. now rewrite upperByte_range, IH.
Qed.

Lemma ToUpper_idem (s : string) : Bytes.isASCII s = true -> ToUpper (ToUpper s) = ToUpper s.
Proof.
  intros Ha. unfold ToUpper. rewrite Ha, isASCII_upperASCII, Ha. apply upperASCII_idem.
Qed.

(** X7: country codes are matched without regard to ASCII letter case.
    For an ASCII code, the lookup of the code, of its upper-cased form and of
    any ASCII code with the same upper-cased form do the same and answer the
    same; and the key under which the record of an accepted line is stored is
    its own upper-cased form, so that looking up the feed's own spelling of
    an ASCII country code reaches it. *)
Theorem lookup_ignores_case (env : Env) (p : Processor) (w : World) (cc : string) :
  Bytes.isASCII cc = true ->
  GetIPListForCountry env p w (ToUpper cc) = GetIPListForCountry env p w cc /\
  (forall cc',
     Bytes.isASCII cc' = true -> Strings.upperASCII cc' = Strings.upperASCII cc ->
     GetIPListForCountry env p w cc' = GetIPListForCountry env p w cc) /\
  (forall line r,
     lineRecord line = Some r ->
     nth 1 (Strings.Split line "|") "" = cc ->
     Country r = ToUpper cc /\ ToUpper (Country r) = Country r).
Proof.
  intros Ha. split; [| split].
  - rewrite !lookup_unfold, (ToUpper_idem cc Ha). reflexivity.
  - intros cc' Ha' Heq.
    assert (ToUpper cc' = ToUpper cc) as Hk by (unfold ToUpper; now rewrite Ha, Ha').
    rewrite !lookup_unfold, Hk. reflexivity.
  - intros line r Hr Hf.
    destruct (lineRecord_accepted line r Hr) as (_ & _ & _ & _ & _ & _ & Hc & _).
    rewrite Hc, Hf. split; [reflexivity | now apply ToUpper_idem].
Qed.

(** [float64] holds every power of two of the range of [int] exactly. *)
Lemma float64OfInt_pow2 (k : Z) : 0 <= k -> Math.float64OfInt (2 ^ k) = 2 ^ k.
Proof.
  intros Hk. unfold Math.float64OfInt. rewrite Z.log2_pow2 by lia.
  destruct (Z.leb_spec (k - 52) 0) as [Hle | Hgt]; [reflexivity |].
  assert (2 ^ k = 2 ^ 52 * 2 ^ (k - 52)) as Hsplit
    by (rewrite <- Z.pow_add_r by lia; f_equal; lia).
  assert (0 < 2 ^ (k - 52)) as Hpos by (apply Z.pow_pos_nonneg; lia).
  assert (2 ^ k / 2 ^ (k - 52) = 2 ^ 52) as Hdiv
    by (rewrite Hsplit; apply Z.div_mul; lia).
  assert (2 ^ k mod 2 ^ (k - 52) = 0) as Hmod
    by (rewrite Hsplit; apply Z.mod_mul; lia).
  rewrite Z.shiftr_div_pow2, Z.land_ones, !Z.shiftl_mul_pow2 by lia.
  rewrite Hdiv, Hmod.
  assert (0 < 2 ^ (k - 52 - 1)) as Hhalf by (apply Z.pow_pos_nonneg; lia).
  destruct (Z.ltb_spec (1 * 2 ^ (k - 52 - 1)) 0) as [Hlt | _]; [lia |].
  destruct (Z.eqb_spec 0 (1 * 2 ^ (k - 52 - 1))) as [Heq | _]; [lia |].
  cbn [orb andb]. lia.
Qed.

(** X8: the prefix length is not confined to [0, 32].  For every power of
    two [2^k] an [int] can hold ([0 <= k <= 62]) the derived prefix length
    is exactly [32 - k]; so a count above [2^32] gives a negative prefix
    length, and the CIDR string of its record carries it as it is. *)
Theorem large_count_negative_prefix (k : Z) :
  0 <= k <= 62 ->
  cidrMask (2 ^ k) = 32 - k /\
  (32 < k -> cidrMask (2 ^ k) < 0) /\
  (forall line r,
     lineRecord line = Some r -> Count r = 2 ^ k ->
     cidr r = IPStart r +:+ "/" +:+ Strconv.Itoa (32 - k)).
Proof.
  intros Hk.
  assert (cidrMask (2 ^ k) = 32 - k) as Hm.
  { unfold cidrMask, Math.intLog2. rewrite float64OfInt_pow2 by lia.
    unfold Math.fracIsHalf, Math.frexpExp. rewrite Z.log2_pow2 by lia.
    replace (k + 1 - 1) with k by lia.
    assert (0 < 2 ^ k) as Hp by (apply Z.pow_pos_nonneg; lia).
    apply Z.ltb_lt in Hp. rewrite Hp, Z.eqb_refl. cbn [andb].
    unfold Strconv.wrapInt. rewrite Z.mod_small by lia. lia. }
  split; [exact Hm |]. split; [lia |].
  intros line r Hr Hc. unfold cidr. now rewrite (lineRecord_mask line r Hr), Hc, Hm.
Qed.

End Effects.

(** * The request handler *)

Section HandlerFacts.

Context {S : Type} `{IPProcessor S}.
Variables (config : Config) (processor : S) (w : Http.ResponseWriter) (r : Http.Request).

(** [http.Error] on a writer whose header is not yet written. *)
Lemma http_error_fresh (msg : string) (code : Z) :
  Http.sent w = None ->
  Http.statusOf (Http.Error w msg code) = code /\
  Http.written (Http.Error w msg code) = Http.written w +:+ msg +:+ String "010" EmptyString /\
  Http.headersOf (Http.Error w msg code) !! "Content-Type"
  = Some ["text/plain; charset=utf-8"] /\
  Http.headersOf (Http.Error w msg code) !! "X-Content-Type-Options" = Some ["nosniff"] /\
  Http.headersOf (Http.Error w msg code) !! "Content-Length" = None.
Proof.
  intros Hs. unfold Http.Error, Http.Write, Http.WriteHeader, Http.setHeader, Http.delHeader,
    Http.statusOf, Http.headersOf, Http.HeaderSet, Http.HeaderDel.
  cbn [Http.sent Http.header Http.written]. rewrite Hs. cbn [Http.sent Http.header Http.written].
  repeat split.
  - rewrite lookup_insert_ne by discriminate. apply lookup_insert_eq.
  - apply lookup_insert_eq.
  - rewrite !lookup_insert_ne by discriminate. apply lookup_delete_eq.
Qed.

(** One [Write]. *)
Lemma write_once (w0 : Http.ResponseWriter) (data : string) :
  Http.written (Http.Write w0 data) = Http.written w0 +:+ data /\
  Http.header (Http.Write w0 data) = Http.header w0 /\
  Http.sent (Http.Write w0 data)
  = match Http.sent w0 with
    | Some x => Some x
    | None => Some (StatusOK, Http.header w0)
    end.
Proof.
  unfold Http.Write, Http.WriteHeader.
  destruct (Http.sent w0) as [x |] eqn:Hs; cbn [Http.written Http.header Http.sent];
    rewrite ?Hs; repeat split.
Qed.

(** The loop that writes the list: the bytes, the header map, and the
    status and headers fixed by the first write. *)
Lemma write_list (w0 : Http.ResponseWriter) (l : list string) :
  Http.written (foldl (fun w ip => Http.Write w (ip +:+ String "010" EmptyString)) w0 l)
  = Http.written w0 +:+ listBody l /\
  Http.header (foldl (fun w ip => Http.Write w (ip +:+ String "010" EmptyString)) w0 l)
  = Http.header w0 /\
  Http.sent (foldl (fun w ip => Http.Write w (ip +:+ String "010" EmptyString)) w0 l)
  = match Http.sent w0, l with
    | Some x, _ => Some x
    | None, [] => None
    | None, _ :: _ => Some (StatusOK, Http.header w0)
    end.
Proof.
  revert w0. induction l as [| ip l IH]; intros w0.
  - cbn [foldl]. unfold listBody. cbn [foldr]. rewrite append_nil_r.
    repeat split. now destruct (Http.sent w0).
  - cbn [foldl].
    destruct (IH (Http.Write w0 (ip +:+ String "010" EmptyString))) as (Hw & Hh & Hst).
    destruct (write_once w0 (ip +:+ String "010" EmptyString)) as (Hw1 & Hh1 & Hs1).
    rewrite Hw, Hh, Hst, Hw1, Hh1, Hs1. clear.
    split; [| split; [reflexivity |]].
    + change (listBody (ip :: l)) with (ip +:+ String "010" (listBody l)).
      rewrite !append_assoc. reflexivity.
    + now destruct (Http.sent w0).
Qed.

(** The authentication test of the handler fails exactly when a token is
    configured and the request's [auth] value is not that token. *)
Lemma auth_rule (token auth : string) :
  negb (String.eqb token "") && (String.eqb auth "" || negb (String.eqb auth token)) = true
  <-> token <> "" /\ auth <> token.
Proof.
  destruct (String.eqb_spec token "") as [-> | Ht]; cbn [negb andb].
  - split; [discriminate | intros [[] _]; reflexivity].
  - destruct (String.eqb_spec auth token) as [-> | Ha]; cbn [negb orb].
    + destruct (String.eqb_spec token "") as [He | _]; [contradiction |].
      split; [discriminate | intros [_ []]; reflexivity].
    + rewrite orb_true_r. split; auto.
Qed.

(** X9: a request that is not a GET, or names no country, or fails the
    authentication, never reaches the processor: the processor is returned as
    it was, and the response is the error of the first test that fails, in
    the order method (405), country (400), authentication (401), with the
    message, a line feed and the content type of [http.Error]. *)
Theorem rejected_request_spares_processor :
  Http.sent w = None ->
  Http.Method r <> "GET" \/
  Http.Get (Http.Query r) "country" = "" \/
  (AuthToken config <> "" /\ Http.Get (Http.Query r) "auth" <> AuthToken config) ->
  (getIpListHandler config processor w r).2 = processor /\
  Http.statusOf (getIpListHandler config processor w r).1
  = (if negb (String.eqb (Http.Method r) "GET") then 405
     else if String.eqb (Http.Get (Http.Query r) "country") "" then 400
     else 401) /\
  Http.written (getIpListHandler config processor w r).1
  = Http.written w +:+
    (if negb (String.eqb (Http.Method r) "GET") then "Method not allowed"
     else if String.eqb (Http.Get (Http.Query r) "country") "" then "Missing country parameter"
     else "Unauthorized") +:+ String "010" EmptyString /\
  Http.headersOf (getIpListHandler config processor w r).1 !! "Content-Type"
  = Some ["text/plain; charset=utf-8"].
Proof.
  intros Hs Hrej. unfold getIpListHandler, Http.MethodGet.
  destruct (String.eqb_spec (Http.Method r) "GET") as [Hm | Hm]; cbn [negb].
  2: { destruct (http_error_fresh "Method not allowed" Http.StatusMethodNotAllowed Hs)
         as (H1 & H2 & H3 & _). cbn [fst snd]. auto. }
  destruct (String.eqb_spec (Http.Get (Http.Query r) "country") "") as [Hc | Hc].
  { destruct (http_error_fresh "Missing country parameter" Http.StatusBadRequest Hs)
      as (H1 & H2 & H3 & _). cbn [fst snd]. auto. }
  destruct (negb (String.eqb (AuthToken config) "") &&
            (String.eqb (Http.Get (Http.Query r) "auth") "" ||
             negb (String.eqb (Http.Get (Http.Query r) "auth") (AuthToken config)))) eqn:Ha.
  { destruct (http_error_fresh "Unauthorized" Http.StatusUnauthorized Hs)
      as (H1 & H2 & H3 & _). cbn [fst snd]. auto. }
  exfalso. destruct Hrej as [Hr | [Hr | Hr]]; [contradiction | contradiction |].
  apply auth_rule in Hr. congruence.
Qed.

(** The handler on a request that passes its three tests. *)
Lemma handler_accepted :
  Http.sent w = None ->
  Http.Method r = "GET" ->
  Http.Get (Http.Query r) "country" <> "" ->
  AuthToken config = "" \/ Http.Get (Http.Query r) "auth" = AuthToken config ->
  (getIpListHandler config processor w r).2
  = (lookupCountry processor (Http.Get (Http.Query r) "country")).2 /\
  match (lookupCountry processor (Http.Get (Http.Query r) "country")).1.2 with
  | None =>
      Http.statusOf (getIpListHandler config processor w r).1 = 200 /\
      Http.written (getIpListHandler config processor w r).1
      = Http.written w +:+
        listBody (lookupCountry processor (Http.Get (Http.Query r) "country")).1.1 /\
      Http.headersOf (getIpListHandler config processor w r).1 !! "Content-Type"
      = Some ["text/plain"]
  | Some e =>
      Http.statusOf (getIpListHandler config processor w r).1 = 500 /\
      Http.written (getIpListHandler config processor w r).1
      = Http.written w +:+ ("Error processing request: " +:+ Error e) +:+
        String "010" EmptyString /\
      Http.headersOf (getIpListHandler config processor w r).1 !! "Content-Type"
      = Some ["text/plain; charset=utf-8"]
  end.
Proof.
  intros Hs Hm Hc Hauth. unfold getIpListHandler, Http.MethodGet.
  rewrite Hm, String.eqb_refl. cbn [negb].
  destruct (String.eqb_spec (Http.Get (Http.Query r) "country") "") as [|_]; [contradiction |].
  destruct (negb (String.eqb (AuthToken config) "") &&
            (String.eqb (Http.Get (Http.Query r) "auth") "" ||
             negb (String.eqb (Http.Get (Http.Query r) "auth") (AuthToken config)))) eqn:Ha.
  { apply auth_rule in Ha. destruct Ha as [Ht Hne]. destruct Hauth; congruence. }
  destruct (lookupCountry processor (Http.Get (Http.Query r) "country"))
    as [[ipList [e |]] processor']; cbn [fst snd].
  - split; [reflexivity |].
    destruct (http_error_fresh ("Error processing request: " +:+ Error e)
                Http.StatusInternalServerError Hs) as (H1 & H2 & H3 & _). auto.
  - split; [reflexivity |].
    destruct (write_list (Http.setHeader w "Content-Type" "text/plain") ipList)
      as (Hw & Hh & Hst).
    change (Http.sent (Http.setHeader w "Content-Type" "text/plain")) with (Http.sent w) in Hst.
    rewrite Hs in Hst. split; [| split; [exact Hw |]].
    + unfold Http.statusOf. rewrite Hst. now destruct ipList.
    + unfold Http.headersOf. rewrite Hst, Hh.
      destruct ipList; apply lookup_insert_eq.
Qed.

(** X10: a GET request that names a country and passes the authentication
    (no token is configured, or the request's [auth] value is the token) is
    answered from one call of the processor, whose state after is returned.
    With a list: status 200, the content type [text/plain], and as body every
    entry followed by a line feed, in order.  With an error: status 500 and
    the body "Error processing request: " followed by the error's message and
    a line feed. *)
Theorem accepted_request_is_served :
  Http.sent w = None ->
  Http.Method r = "GET" ->
  Http.Get (Http.Query r) "country" <> "" ->
  AuthToken config = "" \/ Http.Get (Http.Query r) "auth" = AuthToken config ->
  (getIpListHandler config processor w r).2
  = (lookupCountry processor (Http.Get (Http.Query r) "country")).2 /\
  match (lookupCountry processor (Http.Get (Http.Query r) "country")).1.2 with
  | None =>
      Http.statusOf (getIpListHandler config processor w r).1 = 200 /\
      Http.written (getIpListHandler config processor w r).1
      = Http.written w +:+
        listBody (lookupCountry processor (Http.Get (Http.Query r) "country")).1.1 /\
      Http.headersOf (getIpListHandler config processor w r).1 !! "Content-Type"
      = Some ["text/plain"]
  | Some e =>
      Http.statusOf (getIpListHandler config processor w r).1 = 500 /\
      Http.written (getIpListHandler config processor w r).1
      = Http.written w +:+ ("Error processing request: " +:+ Error e) +:+
        String "010" EmptyString /\
      Http.headersOf (getIpListHandler config processor w r).1 !! "Content-Type"
      = Some ["text/plain; charset=utf-8"]
  end.
Proof. apply handler_accepted. Qed.

End HandlerFacts.

(** ** The lines of a response *)

(** Splitting the body of a response at the line feeds gives the list
    back, followed by the empty field after the last line feed. *)
Lemma Split_listBody (l : list string) :
  Forall (fun ip => hasByte "010" ip = false) l ->
  Strings.Split (listBody l) "010" = (l ++ [EmptyString])%list.
Proof.
  induction 1 as [| ip l Hip _ IH]; [reflexivity |].
  change (listBody (ip :: l)) with (ip +:+ String "010" (listBody l)).
  rewrite (Split_append_sep ip (listBody l) "010" Hip), IH. reflexivity.
Qed.






Section HandlerLines.

Context {S : Type} `{IPProcessor S}.
Variables (config : Config) (processor : S) (w : Http.ResponseWriter) (r : Http.Request).

(** X11: the body of a successful response can be split back into the
    list.  When the processor returns a list none of whose entries holds a
    line feed, the body written to an empty response, split at the line feeds,
    is that list followed by the empty field after the last line feed: one
    line per entry, in order, nothing else. *)
Theorem response_lines_are_the_list (l : list string) (processor' : S) :
  Http.sent w = None ->
  Http.written w = EmptyString ->
  Http.Method r = "GET" ->
  Http.Get (Http.Query r) "country" <> "" ->
  AuthToken config = "" \/ Http.Get (Http.Query r) "auth" = AuthToken config ->
  lookupCountry processor (Http.Get (Http.Query r) "country") = ((l, None), processor') ->
  Forall (fun ip => hasByte "010" ip = false) l ->
  Strings.Split (Http.written (getIpListHandler config processor w r).1) "010"
  = (l ++ [EmptyString])%list.
Proof.
  intros Hs Hw Hm Hc Hauth Hl Hno.
  destruct (handler_accepted config processor w r Hs Hm Hc Hauth) as [_ Hres].
  rewrite Hl in Hres. cbn [fst snd] in Hres. destruct Hres as (_ & Hbody & _).
  rewrite Hbody, Hw. change (EmptyString +:+ listBody l) with (listBody l).
  now apply Split_listBody.
Qed.

End HandlerLines.

Section LiveHandler.

Context `{GoRuntime}.



(** X13: a refresh that fails surfaces as a 500.  When an accepted
    request's lookup misses the fast path and the stale refresh it calls
    fails, the response has status 500 and the body "Error processing
    request: failed to download and process data: " followed by the refresh
    error's message and a line feed, and the processor behind the handler is
    the processor before. *)
Theorem live_handler_reports_failure
  (env : Env) (config : Config) (p : Processor) (w0 : World) (r : Http.Request) :
  fresh p (clockAt env (S (ticks w0))) = false ->
  fresh p (clockAt env (ticks w0)) = false \/
  cache p !! ToUpper (Http.Get (Http.Query r) "country") = None ->
  RefreshFailure env w0 ->
  Http.Method r = "GET" ->
  Http.Get (Http.Query r) "country" <> "" ->
  AuthToken config = "" \/ Http.Get (Http.Query r) "auth" = AuthToken config ->
  exists e,
    (downloadAndProcessData env p (now env w0).2).1.1 = Some e /\
    Http.statusOf
      (getIpListHandler (H := liveProcessor env) config (p, w0) Http.newRecorder r).1 = 500 /\
    Http.written
      (getIpListHandler (H := liveProcessor env) config (p, w0) Http.newRecorder r).1
    = "Error processing request: failed to download and process data: " +:+ Error e +:+
      String "010" EmptyString /\
    (getIpListHandler (H := liveProcessor env) config (p, w0) Http.newRecorder r).2.1 = p.
Proof.
  intros Hs Hmiss Hfail Hm Hc Hauth.
  destruct (refresh_failure env p (now env w0).2 Hs (RefreshFailure_now env w0 Hfail))
    as (e & w1 & Hr).
  pose proof (lookup_miss_error env p w0 _ e p w1 Hmiss Hr) as Hl.
  exists e. split; [now rewrite Hr |].
  destruct (handler_accepted (H := liveProcessor env) config (p, w0) Http.newRecorder r
              eq_refl Hm Hc Hauth) as [Hst Hres].
  cbn [lookupCountry liveProcessor fst snd] in Hst, Hres.
  rewrite Hl in Hres. cbn [fst snd] in Hres. destruct Hres as (Hcode & Hbody & _).
  rewrite Hst, Hbody, Hl. cbn [fst snd]. repeat split; try assumption.
Qed.

End LiveHandler.

(** * [ValidateIPCIDR] *)

(** The table of the repository's [TestValidateIPCIDR], and some more
    malformed strings. *)
Example validate_table :
  map (fun s => match ValidateIPCIDR (H := ipv4Only) s with None => true | Some _ => false end)
    ["192.168.1.0/24"; "192.168.1.1/32"; "192.168.1.0/33"; "192.168.1/24"; "192.168.1.0";
     "999.168.1.0/24"; "192.168.01.0/24"; "192.168.1.0/"; "/24";
     "1.2.3.4/-1"; "1.2.3.4/0"; "1.2.3.4.5/8"; "1..3.4/8"; "1.2.3.4/8/8"]
  = [true; true; false; false; false; false; false; false; false;
     false; true; false; false; false].
Proof. vm_compute. reflexivity. Qed.

(** ** Printing and reading decimal numbers *)

Lemma digitVal_digitChar (d : Z) :
  0 <= d < 10 -> Strconv.digitVal (Strconv.digitChar d) = Some d.
Proof.
  intros Hd.
  assert (d = 0 \/ d = 1 \/ d = 2 \/ d = 3 \/ d = 4 \/ d = 5 \/ d = 6 \/ d = 7 \/ d = 8 \/ d = 9)
    as Hcases by lia.
  repeat (destruct Hcases as [-> | Hcases]; [reflexivity |]). now rewrite Hcases.
Qed.

(** Reading the digits [natDigits] printed for [n] in front of [acc]
    shifts what was read before by the width of [n] and adds [n]. *)
Lemma digits_natDigits (fuel : nat) : forall n : Z,
  0 <= n < 10 ^ Z.of_nat (S fuel) ->
  exists m, 0 < m /\
    forall a acc,
      Strconv.digits a (Strconv.natDigits (S fuel) n acc) = Strconv.digits (a * m + n) acc.
Proof.
  induction fuel as [| fuel IH]; intros n Hn.
  - exists 10. split; [lia |]. intros a acc. cbn [Strconv.natDigits].
    assert (n < 10) as Hlt by (change (10 ^ Z.of_nat 1) with 10 in Hn; lia).
    apply Z.ltb_lt in Hlt as Hb. rewrite Hb. cbn [Strconv.digits].
    rewrite digitVal_digitChar by (apply Z.mod_pos_bound; lia).
    rewrite Z.mod_small by lia. reflexivity.
  - change (Strconv.natDigits (S (S fuel)) n)
      with (fun acc =>
              if n <? 10 then String (Strconv.digitChar (n mod 10)) acc
              else Strconv.natDigits (S fuel) (n / 10)
                     (String (Strconv.digitChar (n mod 10)) acc)).
    destruct (Z.ltb_spec n 10) as [Hlt | Hge].
    + exists 10. split; [lia |]. intros a acc. cbn [Strconv.digits].
      rewrite digitVal_digitChar by (apply Z.mod_pos_bound; lia).
      rewrite Z.mod_small by lia. reflexivity.
    + assert (0 <= n / 10 < 10 ^ Z.of_nat (S fuel)) as Hq.
      { split; [apply Z.div_pos; lia |].
        apply Z.div_lt_upper_bound; [lia |].
        replace (Z.of_nat (S (S fuel))) with (Z.of_nat (S fuel) + 1) in Hn by lia.
        rewrite Z.pow_add_r in Hn by lia. lia. }
      destruct (IH (n / 10) Hq) as (m & Hm & Heq).
      exists (10 * m). split; [lia |]. intros a acc. rewrite Heq. cbn [Strconv.digits].
      rewrite digitVal_digitChar by (apply Z.mod_pos_bound; lia).
      f_equal. pose proof (Z.div_mod n 10 ltac:(lia)). lia.
Qed.

(** The digits printed by [strconv.Itoa] for a number that is not
    negative read back as that number. *)
Lemma digits_Itoa (n : Z) : 0 <= n -> Strconv.digits 0 (Strconv.Itoa n) = Some n.
Proof.
  intros Hn. unfold Strconv.Itoa.
  destruct (Z.ltb_spec n 0) as [| _]; [lia |].
  replace (Z.to_nat (Z.log2 n) + 1)%nat with (S (Z.to_nat (Z.log2 n))) by lia.
  assert (0 <= n < 10 ^ Z.of_nat (S (Z.to_nat (Z.log2 n)))) as Hb.
  { split; [exact Hn |].
    pose proof (Z.log2_nonneg n) as Hl.
    replace (Z.of_nat (S (Z.to_nat (Z.log2 n)))) with (Z.log2 n + 1) by lia.
    assert (n < 2 ^ (Z.log2 n + 1)) as H2.
    { destruct (Z.eq_dec n 0) as [-> | Hnz]; [reflexivity |].
      pose proof (Z.log2_spec n ltac:(lia)). replace (Z.log2 n + 1) with (Z.succ (Z.log2 n)) by lia.
      lia. }
    assert (2 ^ (Z.log2 n + 1) <= 10 ^ (Z.log2 n + 1)) by (apply Z.pow_le_mono_l; lia).
    lia. }
  destruct (digits_natDigits _ n Hb) as (m & _ & Heq).
  rewrite Heq. cbn [Strconv.digits]. f_equal; lia.
Qed.

Lemma natDigits_length (fuel : nat) : forall (n : Z) (acc : string),
  (String.length acc <= String.length (Strconv.natDigits fuel n acc))%nat.
Proof.
  induction fuel as [| fuel IH]; intros n acc; [reflexivity |].
  cbn [Strconv.natDigits]. destruct (n <? 10); [cbn [String.length]; lia |].
  etransitivity; [| apply IH]. cbn [String.length]. lia.
Qed.

Lemma Itoa_nonneg_length (n : Z) : 0 <= n -> (0 < String.length (Strconv.Itoa n))%nat.
Proof.
  intros Hn. unfold Strconv.Itoa. destruct (Z.ltb_spec n 0) as [| _]; [lia |].
  replace (Z.to_nat (Z.log2 n) + 1)%nat with (S (Z.to_nat (Z.log2 n))) by lia.
  cbn [Strconv.natDigits]. destruct (n <? 10); [cbn [String.length]; lia |].
  eapply Nat.lt_le_trans; [| apply natDigits_length]. cbn [String.length]. lia.
Qed.

Lemma digits_ge (s : string) : forall a v,
  0 <= a -> Strconv.digits a s = Some v -> a <= v.
Proof.
  induction s as [| c s IH]; intros a v Ha Hd.
  - injection Hd as <-. lia.
  - cbn [Strconv.digits] in Hd. destruct (Strconv.digitVal c) as [d |] eqn:Hc; [| discriminate].
    assert (0 <= d) as Hd0.
    { unfold Strconv.digitVal in Hc. destruct (_ && _) eqn:Hr; [| discriminate].
      injection Hc as <-. apply andb_true_iff in Hr as [Hr _]. apply N.leb_le in Hr. lia. }
    pose proof (IH (a * 10 + d) v ltac:(lia) Hd). lia.
Qed.

(** [dtoi]'s loop on a string of digits: it reads the whole string when
    its value stays under [big], and fails otherwise. *)
Lemma dtoiLoop_digits (s : string) : forall a v i,
  0 <= a < Net.big -> Strconv.digits a s = Some v ->
  (v < Net.big -> Net.dtoiLoop a i s = (v, (i + String.length s)%nat, true)) /\
  (Net.big <= v -> (Net.dtoiLoop a i s).2 = false).
Proof.
  induction s as [| c s IH]; intros a v i Ha Hd.
  - injection Hd as <-. cbn [Net.dtoiLoop String.length]. split; [| lia].
    intros _. now rewrite Nat.add_0_r.
  - cbn [Strconv.digits] in Hd. cbn [Net.dtoiLoop String.length].
    destruct (Strconv.digitVal c) as [d |] eqn:Hc; [| discriminate].
    assert (0 <= d) as Hd0.
    { unfold Strconv.digitVal in Hc. destruct (_ && _) eqn:Hr; [| discriminate].
      injection Hc as <-. apply andb_true_iff in Hr as [Hr _]. apply N.leb_le in Hr. lia. }
    pose proof (digits_ge s (a * 10 + d) v ltac:(lia) Hd) as Hge.
    destruct (Z.leb_spec Net.big (a * 10 + d)) as [Hbig | Hsmall].
    + split; [lia | reflexivity].
    + destruct (IH (a * 10 + d) v (S i) ltac:(lia) Hd) as [H1 H2].
      split; [| exact H2]. intros Hv. rewrite (H1 Hv). f_equal. f_equal. lia.
Qed.

(** The mask test of [ParseCIDR] on a number printed by [strconv.Itoa]:
    it passes exactly when the number lies between zero and the bit length. *)
Lemma mask_Itoa (n bits : Z) :
  0 <= bits < Net.big ->
  (let '(m, i, ok) := Net.dtoi (Strconv.Itoa n) in
   ok && (i =? String.length (Strconv.Itoa n))%nat && (0 <=? m) && (m <=? bits))
  = (0 <=? n) && (n <=? bits).
Proof.
  intros Hb. destruct (Z.leb_spec 0 n) as [Hn | Hn]; cbn [andb].
  - pose proof (digits_Itoa n Hn) as Hd.
    pose proof (Itoa_nonneg_length n Hn) as Hlen.
    destruct (dtoiLoop_digits (Strconv.Itoa n) 0 n 0%nat ltac:(unfold Net.big; lia) Hd)
      as [Hsmall Hlarge].
    unfold Net.dtoi. destruct (Z.lt_ge_cases n Net.big) as [Hlt | Hge].
    + rewrite (Hsmall Hlt). cbn [Nat.add].
      destruct (Nat.eqb_spec (String.length (Strconv.Itoa n)) 0) as [Hz | _]; [lia |].
      rewrite Nat.eqb_refl. cbn [andb].
      destruct (Z.leb_spec 0 n); [reflexivity | lia].
    + specialize (Hlarge Hge).
      destruct (Net.dtoiLoop 0 0 (Strconv.Itoa n)) as [[m i] ok]. cbn [snd] in Hlarge.
      subst ok. cbn [andb]. symmetry. apply Z.leb_gt. lia.
  - unfold Strconv.Itoa. apply Z.ltb_lt in Hn as Hb0. rewrite Hb0. reflexivity.
Qed.

(** A mask with a slash in it never passes. *)
Lemma dtoiLoop_slash (s : string) : forall a i,
  hasByte "/" s = true ->
  (Net.dtoiLoop a i s).2 = false \/
  ((Net.dtoiLoop a i s).1.2 < i + String.length s)%nat.
Proof.
  induction s as [| c s IH]; intros a i Hs; [discriminate |].
  cbn [Net.dtoiLoop String.length].
  destruct (Strconv.digitVal c) as [d |] eqn:Hc.
  - assert (Ascii.eqb c "/" = false) as Hne.
    { destruct (Ascii.eqb_spec c "/") as [-> | ]; [discriminate | reflexivity]. }
    cbn [hasByte] in Hs. rewrite Hne in Hs. cbn [orb] in Hs.
    destruct (Net.big <=? a * 10 + d); [now left |].
    destruct (IH (a * 10 + d) (S i) Hs) as [H0 | H0]; [now left | right; lia].
  - right. cbn [fst snd]. lia.
Qed.

Lemma mask_with_slash (s : string) (bits : Z) :
  hasByte "/" s = true ->
  (let '(m, i, ok) := Net.dtoi s in
   ok && (i =? String.length s)%nat && (0 <=? m) && (m <=? bits)) = false.
Proof.
  intros Hs. unfold Net.dtoi.
  destruct (dtoiLoop_slash s 0 0%nat Hs) as [H0 | H0];
    destruct (Net.dtoiLoop 0 0 s) as [[m i] ok]; cbn [fst snd] in H0.
  - now subst ok.
  - destruct ok; [| reflexivity].
    destruct (Nat.eqb_spec i 0); [reflexivity |].
    destruct (Nat.eqb_spec i (String.length s)); [lia | reflexivity].
Qed.

(** Cutting at the first slash. *)
Lemma cutByte_fresh (a b : string) (c : ascii) :
  hasByte c a = false -> Net.cutByte (a +:+ String c b) c = Some (a, b).
Proof.
  induction a as [| x a IH]; intros Hn.
  - change (EmptyString +:+ String c b) with (String c b). cbn [Net.cutByte].
    now rewrite Ascii.eqb_refl.
  - cbn [hasByte] in Hn. apply orb_false_iff in Hn as [Hx Ha].
    rewrite append_cons. cbn [Net.cutByte]. now rewrite Hx, (IH Ha).
Qed.

Lemma cutByte_inside (a b : string) (c : ascii) :
  hasByte c a = true ->
  exists a1 rest, Net.cutByte (a +:+ String c b) c = Some (a1, rest) /\ hasByte c rest = true.
Proof.
  induction a as [| x a IH]; intros Hy; [discriminate |].
  rewrite append_cons. cbn [Net.cutByte]. cbn [hasByte] in Hy.
  destruct (Ascii.eqb x c) eqn:Hx.
  - exists EmptyString, (a +:+ String c b). split; [reflexivity |].
    rewrite hasByte_append. cbn [hasByte]. rewrite Ascii.eqb_refl. apply orb_true_r.
  - cbn [orb] in Hy. destruct (IH Hy) as (a1 & rest & Hcut & Hrest).
    rewrite Hcut. eauto.
Qed.

(** A decimal digit is none of the bytes the address parsers look for. *)
Lemma digit_not_special (c : ascii) (d : Z) :
  Strconv.digitVal c = Some d ->
  Ascii.eqb c "." = false /\ Ascii.eqb c ":" = false /\ Ascii.eqb c "%" = false /\
  Ascii.eqb c "/" = false.
Proof.
  destruct c as [[] [] [] [] [] [] [] []]; vm_compute; intros Hd;
    try discriminate; repeat split.
Qed.

(** An address the IPv4 parser accepts consists of digits and dots, and
    holds a dot unless the parser had passed three of them before. *)
Lemma parseIPv4Loop_bytes (s : string) : forall first prevDot val pos digLen fields f,
  Net.parseIPv4Loop s first prevDot val pos digLen fields = Some f ->
  hasByte "/" s = false /\
  (Net.addrKind s = Some "."%char \/ (Net.addrKind s = None /\ (3 <= pos)%nat)).
Proof.
  induction s as [| c s IH]; intros first prevDot val pos digLen fields f Hp.
  - cbn [Net.parseIPv4Loop] in Hp. destruct (Nat.ltb_spec pos 3); [discriminate |].
    split; [reflexivity | right; split; [reflexivity | lia]].
  - cbn [Net.parseIPv4Loop] in Hp. cbn [hasByte Net.addrKind].
    destruct (Strconv.digitVal c) as [d |] eqn:Hc.
    + destruct (digit_not_special c d Hc) as (H1 & H2 & H3 & H4).
      rewrite H1, H2, H3, H4. cbn [orb].
      destruct (_ && _); [discriminate |].
      destruct (255 <? val * 10 + d); [discriminate |].
      exact (IH _ _ _ _ _ _ _ Hp).
    + destruct (Ascii.eqb_spec c ".") as [-> | Hne]; [| discriminate].
      cbn [orb]. split; [| now left].
      destruct (first || _ || prevDot); [discriminate |].
      destruct (pos =? 3)%nat; [discriminate |].
      cbn [Ascii.eqb]. exact (proj1 (IH _ _ _ _ _ _ _ Hp)).
Qed.

Section Validate.

Context `{NetRuntime}.

Lemma addrBits_range (a : string) (bits : Z) :
  Net.addrBits a = Some bits -> bits = 32 \/ bits = 128.
Proof.
  unfold Net.addrBits. destruct (Net.addrKind a) as [c |]; [| discriminate].
  destruct (Ascii.eqb c ".").
  - destruct (Net.parseIPv4 a); [intros [= <-]; now left | discriminate].
  - destruct (Ascii.eqb c ":"); [| discriminate].
    destruct (parseIPv6 a); [intros [= <-]; now right | discriminate].
Qed.

(** The strings of the form the processor prints, under the validator. *)
Lemma validate_formatted (addr : string) (n : Z) :
  ValidateIPCIDR (addr +:+ "/" +:+ Strconv.Itoa n) = None
  <-> hasByte "/" addr = false /\
      exists bits, Net.addrBits addr = Some bits /\ 0 <= n <= bits.
Proof.
  change (addr +:+ "/" +:+ Strconv.Itoa n) with (addr +:+ String "/" (Strconv.Itoa n)).
  unfold ValidateIPCIDR, Net.ParseCIDR.
  destruct (hasByte "/" addr) eqn:Hs.
  - destruct (cutByte_inside addr (Strconv.Itoa n) "/" Hs) as (a1 & rest & -> & Hrest).
    split; [| intros [? _]; discriminate].
    destruct (Net.addrBits a1) as [bits |]; [| discriminate].
    now rewrite (mask_with_slash rest bits Hrest).
  - rewrite (cutByte_fresh addr (Strconv.Itoa n) "/" Hs).
    destruct (Net.addrBits addr) as [bits |] eqn:Hb.
    + assert (0 <= bits < Net.big) as Hr
        by (destruct (addrBits_range addr bits Hb) as [-> | ->]; unfold Net.big; lia).
      rewrite (mask_Itoa n bits Hr).
      destruct (Z.leb_spec 0 n) as [H0 | H0], (Z.leb_spec n bits) as [H1 | H1]; cbn [andb].
      * split; [intros _ | reflexivity].
        split; [reflexivity |]. exists bits. split; [reflexivity | lia].
      * split; [discriminate |]. intros (_ & b & Heq & Hn). injection Heq as Heq. lia.
      * split; [discriminate |]. intros (_ & b & Heq & Hn). injection Heq as Heq. lia.
      * split; [discriminate |]. intros (_ & b & Heq & Hn). injection Heq as Heq. lia.
    + split; [discriminate |]. intros (_ & b & Hb' & _). discriminate.
Qed.

(** X14: which of the strings "<address>/<number>" pass [ValidateIPCIDR].
    The string printed from an address and an integer is valid exactly when
    the address holds no slash, parses (as IPv4, or as IPv6 without a zone)
    and the integer lies between zero and the bit length of the address, 32
    or 128. *)
Theorem validate_printed_cidr (addr : string) (n : Z) :
  ValidateIPCIDR (addr +:+ "/" +:+ Strconv.Itoa n) = None
  <-> hasByte "/" addr = false /\
      exists bits, Net.addrBits addr = Some bits /\ 0 <= n <= bits.
Proof. apply validate_formatted. Qed.

Context `{GoRuntime}.

(** X15: the processor's output against the validator.  For a feed line
    that is accepted, with a start address the IPv4 parser accepts and a count
    [2^k] ([0 <= k <= 62]), the CIDR string the processor derives passes
    [ValidateIPCIDR] exactly when [k <= 32]: every block of up to [2^32]
    addresses gives a valid string, every larger one an invalid one. *)
Theorem derived_cidr_validity (line : string) (r : IPData) (k : Z) :
  lineRecord line = Some r ->
  Net.parseIPv4 (IPStart r) <> None ->
  Count r = 2 ^ k ->
  0 <= k <= 62 ->
  (ValidateIPCIDR (cidr r) = None <-> k <= 32).
Proof.
  intros Hr Hip Hc Hk.
  assert (CIDRMask r = 32 - k) as Hm.
  { rewrite (lineRecord_mask line r Hr), Hc.
    unfold cidrMask, Math.intLog2. rewrite float64OfInt_pow2 by lia.
    unfold Math.fracIsHalf, Math.frexpExp. rewrite Z.log2_pow2 by lia.
    replace (k + 1 - 1) with k by lia.
    assert (0 < 2 ^ k) as Hp by (apply Z.pow_pos_nonneg; lia).
    apply Z.ltb_lt in Hp. rewrite Hp, Z.eqb_refl. cbn [andb].
    unfold Strconv.wrapInt. rewrite Z.mod_small by lia. lia. }
  destruct (Net.parseIPv4 (IPStart r)) as [f |] eqn:Hf; [| contradiction].
  destruct (parseIPv4Loop_bytes (IPStart r) _ _ _ _ _ _ _ Hf) as [Hslash [Hkind | [_ Hpos]]];
    [| lia].
  assert (Net.addrBits (IPStart r) = Some 32) as Hbits
    by (unfold Net.addrBits; now rewrite Hkind, Hf).
  unfold cidr. rewrite validate_formatted, Hm. split.
  - intros (_ & bits & Hb & Hn). rewrite Hbits in Hb. injection Hb as <-. lia.
  - intros Hle. split; [exact Hslash |]. exists 32. split; [exact Hbits | lia].
Qed.

End Validate.

(** * The version strings *)

(** X16: the full version string has one labelled line per build
    variable.  When none of the four variables holds a line feed, splitting
    [GetFullVersion] at the line feeds gives exactly the four lines "Version: ",
    "Git Commit: ", "Build Date: " and "Go Version: ", each followed by its
    variable; and [GetVersion] never returns the bare "dev". *)
Theorem full_version_lines (b : BuildInfo) :
  hasByte "010" (Version b) = false ->
  hasByte "010" (GitCommit b) = false ->
  hasByte "010" (BuildDate b) = false ->
  hasByte "010" (GoVersion b) = false ->
  Strings.Split (GetFullVersion b) "010"
  = ["Version: " +:+ Version b; "Git Commit: " +:+ GitCommit b;
     "Build Date: " +:+ BuildDate b; "Go Version: " +:+ GoVersion b] /\
  GetVersion b <> "dev".
Proof.
  intros Hv Hg Hd Ho. split.
  - unfold GetFullVersion.
    change (String "010" EmptyString +:+ "Git Commit: " +:+ GitCommit b +:+ String "010" EmptyString +:+
            "Build Date: " +:+ BuildDate b +:+ String "010" EmptyString +:+ "Go Version: " +:+ GoVersion b)
      with (String "010" ("Git Commit: " +:+ GitCommit b +:+ String "010"
            ("Build Date: " +:+ BuildDate b +:+ String "010" ("Go Version: " +:+ GoVersion b)))).
    rewrite <- (append_assoc "Version: " (Version b)).
    rewrite Split_append_sep by (rewrite hasByte_append, Hv; reflexivity).
    rewrite <- (append_assoc "Git Commit: " (GitCommit b)).
    rewrite Split_append_sep by (rewrite hasByte_append, Hg; reflexivity).
    rewrite <- (append_assoc "Build Date: " (BuildDate b)).
    rewrite Split_append_sep by (rewrite hasByte_append, Hd; reflexivity).
    rewrite Split_no_sep by (rewrite hasByte_append, Ho; reflexivity).
    reflexivity.
  - unfold GetVersion. destruct (String.eqb_spec (Version b) "dev"); [discriminate | assumption].
Qed.

(** * The further theorems on concrete runs *)


Lemma failed_lookup_is_retried_run :
  failedLookup.1.2 = staleProcessor /\
  doCalls failedLookup.2 = S (doCalls initWorld) /\
  doCalls (GetIPListForCountry (H := refRuntime) downEnv failedLookup.1.2 failedLookup.2 "DE").2
  = S (doCalls failedLookup.2).
Proof.
  apply (failed_lookup_is_retried (H := refRuntime) downEnv staleProcessor initWorld "US" "DE"
           failedLookup.1.1.1
           (wrapError
              "failed to download and process data: failed to download data: mock download error"
              (wrapError "failed to download data: mock download error"
                 (errorString "mock download error")))
           failedLookup.1.2 failedLookup.2).
  - intros i j Hij. cbn. lia.
  - reflexivity.
  - vm_compute. reflexivity.
Defined.


Lemma reachable_invariant_run :
  (forall k, cache usLookup.1.2 !! k <> Some []) /\
  cacheTTL usLookup.1.2 = cacheTTL (NewProcessor None) /\
  ripeURL usLookup.2 = defaultRipeURL /\
  ((cache usLookup.1.2 = ∅ /\ cacheTime usLookup.1.2 = Time.zero) \/
   exists n, (n < ticks usLookup.2)%nat /\
             cacheTime usLookup.1.2 = clockAt (tickingEnv (okResponse usFeed)) n).
Proof.
  apply (reachable_invariant (H := refRuntime) (tickingEnv (okResponse usFeed)) None
           usLookup.1.2 usLookup.2).
  exact (reach_lookup (H := refRuntime) (tickingEnv (okResponse usFeed)) None
           (NewProcessor None) initWorld "us"
           (reach_new (H := refRuntime) (tickingEnv (okResponse usFeed)) None)).
Defined.

Lemma empty_answer_means_unknown_run :
  (forall k, cache usLookup.1.2 !! k <> Some []) /\
  (usLookup.1.1.1 = [] <-> cache usLookup.1.2 !! ToUpper (H := refRuntime) "us" = None) /\
  (usLookup.1.1.1 <> [] ->
   cache usLookup.1.2 !! ToUpper (H := refRuntime) "us" = Some usLookup.1.1.1).
Proof.
  apply (empty_answer_means_unknown (H := refRuntime) (tickingEnv (okResponse usFeed))
           staleProcessor usLookup.1.2 initWorld usLookup.2 "us" usLookup.1.1.1).
  - intros k. change (cache staleProcessor) with (∅ : gmap string (list string)).
    rewrite lookup_empty. discriminate.
  - vm_compute. reflexivity.
Defined.

Lemma first_lookup_fetches_run :
  fresh (NewProcessor None) (clockAt (wallEnv (okResponse usFeed)) 1) = false /\
  doCalls (GetIPListForCountry (H := refRuntime) (wallEnv (okResponse usFeed))
             (NewProcessor None) initWorld "us").2 = 1%nat.
Proof.
  apply (first_lookup_fetches (H := refRuntime) (wallEnv (okResponse usFeed)) None "us").
  - apply Z.leb_le. vm_compute. reflexivity.
  - apply Z.leb_le. vm_compute. reflexivity.
  - reflexivity.
Defined.

Lemma lookup_ignores_case_run :
  GetIPListForCountry (H := refRuntime) (tickingEnv (okResponse usFeed)) freshProcessor
    initWorld (ToUpper (H := refRuntime) "us")
  = GetIPListForCountry (H := refRuntime) (tickingEnv (okResponse usFeed)) freshProcessor
      initWorld "us" /\
  (forall cc',
     Bytes.isASCII cc' = true -> Strings.upperASCII cc' = Strings.upperASCII "us" ->
     GetIPListForCountry (H := refRuntime) (tickingEnv (okResponse usFeed)) freshProcessor
       initWorld cc'
     = GetIPListForCountry (H := refRuntime) (tickingEnv (okResponse usFeed)) freshProcessor
         initWorld "us") /\
  (forall line r,
     lineRecord (H := refRuntime) line = Some r ->
     nth 1 (Strings.Split line "|") "" = "us" ->
     Country r = ToUpper (H := refRuntime) "us" /\
     ToUpper (H := refRuntime) (Country r) = Country r).
Proof.
  apply (lookup_ignores_case (H := refRuntime) (tickingEnv (okResponse usFeed)) freshProcessor
           initWorld "us").
  reflexivity.
Defined.

Lemma large_count_negative_prefix_run :
  cidrMask (H := refRuntime) (2 ^ 33) = 32 - 33 /\
  (32 < 33 -> cidrMask (H := refRuntime) (2 ^ 33) < 0) /\
  (forall line r,
     lineRecord (H := refRuntime) line = Some r -> Count r = 2 ^ 33 ->
     cidr r = IPStart r +:+ "/" +:+ Strconv.Itoa (32 - 33)).
Proof.
  apply (large_count_negative_prefix (H := refRuntime) 33). lia.
Defined.

Lemma rejected_request_run :
  (getIpListHandler (H := mockProcessor) tokenConfig usMock Http.newRecorder getWrongToken).2
  = usMock /\
  Http.statusOf
    (getIpListHandler (H := mockProcessor) tokenConfig usMock Http.newRecorder getWrongToken).1
  = (if negb (String.eqb (Http.Method getWrongToken) "GET") then 405
     else if String.eqb (Http.Get (Http.Query getWrongToken) "country") "" then 400
     else 401) /\
  Http.written
    (getIpListHandler (H := mockProcessor) tokenConfig usMock Http.newRecorder getWrongToken).1
  = Http.written Http.newRecorder +:+
    (if negb (String.eqb (Http.Method getWrongToken) "GET") then "Method not allowed"
     else if String.eqb (Http.Get (Http.Query getWrongToken) "country") ""
          then "Missing country parameter"
     else "Unauthorized") +:+ String "010" EmptyString /\
  Http.headersOf
    (getIpListHandler (H := mockProcessor) tokenConfig usMock Http.newRecorder getWrongToken).1
    !! "Content-Type"
  = Some ["text/plain; charset=utf-8"].
Proof.
  apply (rejected_request_spares_processor (H := mockProcessor) tokenConfig usMock
           Http.newRecorder getWrongToken).
  - reflexivity.
  - right. right. split; intros Hc; vm_compute in Hc; discriminate Hc.
Defined.

Lemma accepted_request_run :
  (getIpListHandler (H := mockProcessor) openConfig usMock Http.newRecorder getUS).2
  = (lookupCountry (IPProcessor := mockProcessor) usMock
       (Http.Get (Http.Query getUS) "country")).2 /\
  match (lookupCountry (IPProcessor := mockProcessor) usMock
           (Http.Get (Http.Query getUS) "country")).1.2 with
  | None =>
      Http.statusOf
        (getIpListHandler (H := mockProcessor) openConfig usMock Http.newRecorder getUS).1 = 200 /\
      Http.written
        (getIpListHandler (H := mockProcessor) openConfig usMock Http.newRecorder getUS).1
      = Http.written Http.newRecorder +:+
        listBody (lookupCountry (IPProcessor := mockProcessor) usMock
                    (Http.Get (Http.Query getUS) "country")).1.1 /\
      Http.headersOf
        (getIpListHandler (H := mockProcessor) openConfig usMock Http.newRecorder getUS).1
        !! "Content-Type"
      = Some ["text/plain"]
  | Some e =>
      Http.statusOf
        (getIpListHandler (H := mockProcessor) openConfig usMock Http.newRecorder getUS).1 = 500 /\
      Http.written
        (getIpListHandler (H := mockProcessor) openConfig usMock Http.newRecorder getUS).1
      = Http.written Http.newRecorder +:+ ("Error processing request: " +:+ Error e) +:+
        String "010" EmptyString /\
      Http.headersOf
        (getIpListHandler (H := mockProcessor) openConfig usMock Http.newRecorder getUS).1
        !! "Content-Type"
      = Some ["text/plain; charset=utf-8"]
  end.
Proof.
  apply (accepted_request_is_served (H := mockProcessor) openConfig usMock Http.newRecorder
           getUS).
  - reflexivity.
  - vm_compute. reflexivity.
  - intros Hc. vm_compute in Hc. discriminate Hc.
  - left. reflexivity.
Defined.

Lemma response_lines_run :
  Strings.Split
    (Http.written
       (getIpListHandler (H := mockProcessor) openConfig usMock Http.newRecorder getUS).1)
    "010"
  = (["192.168.1.0/24"; "10.0.0.0/8"] ++ [EmptyString])%list.
Proof.
  apply (response_lines_are_the_list (H := mockProcessor) openConfig usMock Http.newRecorder
           getUS ["192.168.1.0/24"; "10.0.0.0/8"] usMock).
  - reflexivity.
  - reflexivity.
  - vm_compute. reflexivity.
  - intros Hc. vm_compute in Hc. discriminate Hc.
  - left. reflexivity.
  - vm_compute. reflexivity.
  - repeat constructor.
Defined.


Lemma live_handler_reports_failure_run :
  exists e,
    (downloadAndProcessData (H := refRuntime) downEnv staleProcessor (now downEnv initWorld).2).1.1
    = Some e /\
    Http.statusOf
      (getIpListHandler (H := liveProcessor (H := refRuntime) downEnv) tokenConfig
         (staleProcessor, initWorld) Http.newRecorder
         {| Http.Method := "GET";
            Http.Query := <["auth" := ["test-token"]]> {[ "country" := ["US"] ]} |}).1 = 500 /\
    Http.written
      (getIpListHandler (H := liveProcessor (H := refRuntime) downEnv) tokenConfig
         (staleProcessor, initWorld) Http.newRecorder
         {| Http.Method := "GET";
            Http.Query := <["auth" := ["test-token"]]> {[ "country" := ["US"] ]} |}).1
    = "Error processing request: failed to download and process data: " +:+ Error e +:+
      String "010" EmptyString /\
    (getIpListHandler (H := liveProcessor (H := refRuntime) downEnv) tokenConfig
       (staleProcessor, initWorld) Http.newRecorder
       {| Http.Method := "GET";
          Http.Query := <["auth" := ["test-token"]]> {[ "country" := ["US"] ]} |}).2.1
    = staleProcessor.
Proof.
  apply (live_handler_reports_failure (H := refRuntime) downEnv tokenConfig staleProcessor
           initWorld
           {| Http.Method := "GET";
              Http.Query := <["auth" := ["test-token"]]> {[ "country" := ["US"] ]} |}).
  - reflexivity.
  - left. reflexivity.
  - apply (DownloadFailed (H := refRuntime) _ _ (errorString "mock download error"));
      reflexivity.
  - reflexivity.
  - intros Hc. vm_compute in Hc. discriminate Hc.
  - right. vm_compute. reflexivity.
Defined.

Lemma derived_cidr_validity_run :
  ValidateIPCIDR (H := ipv4Only) (cidr deRecord) = None <-> 16 <= 32.
Proof.
  apply (derived_cidr_validity (H := ipv4Only) (H0 := refRuntime)
           "ripencc|de|ipv4|10.0.0.0|65536|20220101|allocated" deRecord 16).
  - vm_compute. reflexivity.
  - vm_compute. discriminate.
  - reflexivity.
  - lia.
Defined.

Lemma full_version_lines_run :
  Strings.Split (GetFullVersion defaultBuild) "010"
  = ["Version: " +:+ Version defaultBuild; "Git Commit: " +:+ GitCommit defaultBuild;
     "Build Date: " +:+ BuildDate defaultBuild; "Go Version: " +:+ GoVersion defaultBuild] /\
  GetVersion defaultBuild <> "dev".
Proof.
  apply (full_version_lines defaultBuild); reflexivity.
Defined.

Lemma record_reads_first_five_fields_run :
  lineRecord (H := refRuntime) usFeed = lineRecord (H := refRuntime) usFeedExtended.
Proof.
  apply (record_reads_first_five_fields (H := refRuntime) usFeed usFeedExtended).
  - vm_compute. lia.
  - vm_compute. lia.
  - intros i Hi. destruct i as [| [| [| [| [| i]]]]]; [vm_compute; reflexivity .. | lia].
Defined.
